(** * Embedded sign-in widget sample: the authentication flow of main.go

    A shallow embedding of identity-engine/embedded-sign-in-widget/main.go:
    PKCE generation, the login page, the login callback, logout and the
    profile fetch.

    - [encoding/base64] and [crypto/sha256] are embedded as functions and
      checked on published test vectors.
    - A handler is a state transformer over the process-wide [pkce]
      pointer, the session values of the request, the response writer and
      the list of requests sent to the provider; it stops by returning, by
      exiting the process ([os.Exit], [log.Fatalf]) or by panicking.
    - What lies outside the program is given per request by a [World]: the
      random source, the provider's replies (with the outcome of decoding
      their bodies), the token verifier, [url.Parse] and the cookie codec.
    - [session.Values] holds strings only, as every store of the program
      does: an entry is [None] (nil) or [Some s]. *)

From Stdlib Require Import NArith List Ascii String Strings.Byte Lia.
From stdpp Require Import gmap strings list fin_maps.
Import ListNotations.
Local Open Scope string_scope.
Local Open Scope list_scope.

(** * Bytes and strings *)

(** [[]byte(s)] *)
Definition bytes_of_string (s : string) : list byte := list_byte_of_string s.

Definition byte_of_N (n : N) : byte :=
  match Byte.of_N (n mod 256) with
  | Some b => b
  | None => x00
  end.

(** * encoding/base64 *)

Module Base64.

(** The URL-safe alphabet of RFC 4648 (encodeURL). *)
Definition encodeURL : list ascii :=
  list_ascii_of_string
    "ABCDEFGHIJKLMNOPQRSTUVWXYZabcdefghijklmnopqrstuvwxyz0123456789-_".

Definition sextet (v : N) (shift : N) : ascii :=
  nth (N.to_nat (N.land (N.shiftr v shift) 63)) encodeURL "A"%char.

(** [Encoding.Encode]: three source bytes give four characters; a
    remainder of one or two bytes gives two or three characters, followed
    by padding when the encoding has a pad character. *)
Fixpoint encode (pad : option ascii) (src : list byte) : list ascii :=
  match src with
  | [] => []
  | [b0] =>
      let val := N.shiftl (Byte.to_N b0) 16 in
      sextet val 18 :: sextet val 12 ::
        match pad with Some p => [p; p] | None => [] end
  | [b0; b1] =>
      let val := N.lor (N.shiftl (Byte.to_N b0) 16) (N.shiftl (Byte.to_N b1) 8) in
      sextet val 18 :: sextet val 12 :: sextet val 6 ::
        match pad with Some p => [p] | None => [] end
  | b0 :: b1 :: b2 :: rest =>
      let val := N.lor (N.lor (N.shiftl (Byte.to_N b0) 16) (N.shiftl (Byte.to_N b1) 8))
                       (Byte.to_N b2) in
      sextet val 18 :: sextet val 12 :: sextet val 6 :: sextet val 0 ::
        encode pad rest
  end.

(** [base64.RawURLEncoding.EncodeToString] (no padding) *)
Definition RawURLEncoding_EncodeToString (src : list byte) : string :=
  string_of_list_ascii (encode None src).

(** [base64.URLEncoding.EncodeToString] (padded with '=') *)
Definition URLEncoding_EncodeToString (src : list byte) : string :=
  string_of_list_ascii (encode (Some "="%char) src).

End Base64.

(** * crypto/sha256 *)

Module SHA256.
Local Open Scope N_scope.

Definition mask32 : N := 4294967295.
Definition add32 (x y : N) : N := N.land (x + y) mask32.
Definition rotr (x k : N) : N :=
  N.lor (N.shiftr x k) (N.land (N.shiftl x (32 - k)) mask32).
Definition not32 (x : N) : N := N.lxor x mask32.

Definition _K : list N :=
  [ 1116352408; 1899447441; 3049323471; 3921009573;
    961987163; 1508970993; 2453635748; 2870763221;
    3624381080; 310598401; 607225278; 1426881987;
    1925078388; 2162078206; 2614888103; 3248222580;
    3835390401; 4022224774; 264347078; 604807628;
    770255983; 1249150122; 1555081692; 1996064986;
    2554220882; 2821834349; 2952996808; 3210313671;
    3336571891; 3584528711; 113926993; 338241895;
    666307205; 773529912; 1294757372; 1396182291;
    1695183700; 1986661051; 2177026350; 2456956037;
    2730485921; 2820302411; 3259730800; 3345764771;
    3516065817; 3600352804; 4094571909; 275423344;
    430227734; 506948616; 659060556; 883997877;
    958139571; 1322822218; 1537002063; 1747873779;
    1955562222; 2024104815; 2227730452; 2361852424;
    2428436474; 2756734187; 3204031479; 3329325298 ].

Record digest := Digest { h0 : N; h1 : N; h2 : N; h3 : N; h4 : N; h5 : N; h6 : N; h7 : N }.

Definition init : digest :=
  Digest 1779033703 3144134277 1013904242 2773480762
         1359893119 2600822924 528734635 1541459225.

(** Big-endian 32-bit words of a block. *)
Fixpoint words (p : list byte) : list N :=
  match p with
  | b0 :: b1 :: b2 :: b3 :: rest =>
      N.lor (N.lor (N.shiftl (Byte.to_N b0) 24) (N.shiftl (Byte.to_N b1) 16))
            (N.lor (N.shiftl (Byte.to_N b2) 8) (Byte.to_N b3)) :: words rest
  | _ => []
  end.

(** The message schedule, kept newest first: [nth j wr 0] is w[i-1-j]. *)
Fixpoint schedule (n : nat) (wr : list N) : list N :=
  match n with
  | O => wr
  | S n' =>
      let v1 := nth 1 wr 0 in
      let t1 := N.lxor (N.lxor (rotr v1 17) (rotr v1 19)) (N.shiftr v1 10) in
      let v2 := nth 14 wr 0 in
      let t2 := N.lxor (N.lxor (rotr v2 7) (rotr v2 18)) (N.shiftr v2 3) in
      schedule n' (add32 (add32 (add32 t1 (nth 6 wr 0)) t2) (nth 15 wr 0) :: wr)
  end.

Definition round (s : digest) (kw : N * N) : digest :=
  let '(Digest a b c d e f g h) := s in
  let t1 := add32 (add32 (add32 (add32 h
              (N.lxor (N.lxor (rotr e 6) (rotr e 11)) (rotr e 25)))
              (N.lxor (N.land e f) (N.land (not32 e) g)))
              (fst kw)) (snd kw) in
  let t2 := add32 (N.lxor (N.lxor (rotr a 2) (rotr a 13)) (rotr a 22))
                  (N.lxor (N.lxor (N.land a b) (N.land a c)) (N.land b c)) in
  Digest (add32 t1 t2) a b c (add32 d t1) e f g.

(** One 64-byte chunk. *)
Definition block (s : digest) (p : list byte) : digest :=
  let w := rev (schedule 48 (rev (words p))) in
  let '(Digest a b c d e f g h) := fold_left round (combine _K w) s in
  Digest (add32 (h0 s) a) (add32 (h1 s) b) (add32 (h2 s) c) (add32 (h3 s) d)
         (add32 (h4 s) e) (add32 (h5 s) f) (add32 (h6 s) g) (add32 (h7 s) h).

Fixpoint blocks (n : nat) (s : digest) (p : list byte) : digest :=
  match n with
  | O => s
  | S n' => blocks n' (block s (firstn 64 p)) (skipn 64 p)
  end.

Definition be_bytes (k : nat) (x : N) : list byte :=
  map (fun i => byte_of_N (N.shiftr x (8 * N.of_nat i))) (rev (seq 0 k)).

(** Padding: 0x80, zeros up to 56 mod 64, then the bit length on 8 bytes. *)
Definition pad (msg : list byte) : list byte :=
  let len := N.of_nat (length msg) in
  let zeros := N.to_nat ((64 - (len + 9) mod 64) mod 64) in
  msg ++ x80 :: repeat x00 zeros ++ be_bytes 8 (8 * len).

(** [h := sha256.New(); h.Write(msg); h.Sum(nil)] *)
Definition Sum256 (msg : list byte) : list byte :=
  let p := pad msg in
  let '(Digest a b c d e f g h) := blocks (length p / 64) init p in
  flat_map (be_bytes 4) [a; b; c; d; e; f; g; h].

End SHA256.

(** * The PKCE generator *)

Record PKCE := mkPKCE {
  CodeVerifier : string;
  CodeChallenge : string;
  CodeChallengeMethod : string
}.

(** [crypto/rand]: the source either fails or fills the buffer from a
    supply of bytes; [rand_pos] counts the bytes drawn so far. *)
Inductive Rand :=
| RandUnavailable
| RandSupply (supply : nat -> byte).

Definition rand_Read (r : Rand) (pos n : nat) : option (list byte) :=
  match r with
  | RandUnavailable => None
  | RandSupply f => Some (map f (seq pos n))
  end.

(** [createCodeVerifier]: 86 random bytes, base64url-encoded without
    padding; [None] is the error return. *)
Definition createCodeVerifier (r : Rand) (pos : nat) : option string :=
  match rand_Read r pos 86 with
  | None => None
  | Some codeVerifier => Some (Base64.RawURLEncoding_EncodeToString codeVerifier)
  end.

(** [createPKCEData] *)
Definition createPKCEData (r : Rand) (pos : nat) : option PKCE :=
  match createCodeVerifier r pos with
  | None => None
  | Some codeVerifier =>
      let codeChallenge :=
        Base64.RawURLEncoding_EncodeToString (SHA256.Sum256 (bytes_of_string codeVerifier)) in
      Some {| CodeChallenge := codeChallenge;
              CodeVerifier := codeVerifier;
              CodeChallengeMethod := "S256" |}
  end.

(** [generateNonce]: 32 random bytes, base64url-encoded with padding. *)
Definition generateNonce (r : Rand) (pos : nat) : option string :=
  match rand_Read r pos 32 with
  | None => None
  | Some nonceBytes => Some (Base64.URLEncoding_EncodeToString nonceBytes)
  end.

(** * net/url: [url.Values] *)

Definition url_Get (v : gmap string (list string)) (key : string) : string :=
  match v !! key with
  | Some (x :: _) => x
  | _ => ""
  end.

Definition url_Set (key value : string) (v : gmap string (list string))
  : gmap string (list string) := <[key := [value]]> v.

Definition url_Add (key value : string) (v : gmap string (list string))
  : gmap string (list string) := <[key := default [] (v !! key) ++ [value]]> v.

Definition url_Del (key : string) (v : gmap string (list string))
  : gmap string (list string) := delete key v.

(** [strings.Join] *)
Fixpoint strings_Join (elems : list string) (sep : string) : string :=
  match elems with
  | [] => ""
  | [e] => e
  | e :: rest => e +:+ sep +:+ strings_Join rest sep
  end.

(** * Configuration and package-level variables *)

Record config := mkConfig {
  ClientID : string;
  ClientSecret : string;
  Issuer : string;
  Scopes : list string;
  RedirectURI : string
}.

Definition sessionStoreName : string := "okta-self-hosted-session-store".

(** [var state = "ApplicationState"]: no statement of the program assigns it. *)
Definition state : string := "ApplicationState".

(** * The identity provider and the libraries, as seen by one request *)

Record Exchange := mkExchange {
  Error : string;
  ErrorDescription : string;
  AccessToken : string;
  TokenType : string;
  ExpiresIn : Z;
  Scope : string;
  IdToken : string
}.

(** What [json.Unmarshal(body, &v)] does to a zero [v]: a syntax error
    leaves [v] untouched, a type error is reported after the well-typed
    part has been stored, otherwise [v] holds the decoded document. *)
Inductive Unmarshal (A : Type) :=
| SyntaxError
| TypeError (stored : A)
| Unmarshalled (v : A).
Arguments SyntaxError {A}.
Arguments TypeError {A} stored.
Arguments Unmarshalled {A} v.

(** What [client.Do(req)] followed by [ioutil.ReadAll(resp.Body)] gives:
    [DoError] is a transport failure ([resp == nil]); otherwise a response
    with its status code, whether reading the body failed, and what
    decoding the bytes read gives for the target the caller decodes into. *)
Inductive Reply (A : Type) :=
| DoError
| Response (status : nat) (readErr : bool) (body : Unmarshal A).
Arguments DoError {A}.
Arguments Response {A} status readErr body.

Record HttpRequest := mkHttpRequest {
  req_method : string;
  req_endpoint : string;
  req_query : gmap string (list string);
  req_form : gmap string (list string);
  req_header : list (string * string)
}.

(** [jv.New().VerifyIdToken(t)]: an error, a nil result without error, or
    a verified token. *)
Inductive VerifyResult := VerifyError | VerifyNil | VerifyJwt.

Record World := mkWorld {
  rand : Rand;
  http_NewRequest : string -> string -> bool;
  interact : HttpRequest -> Reply string;
  token : HttpRequest -> Reply Exchange;
  userinfo : HttpRequest -> Reply (gmap string string);
  VerifyIdToken : string -> VerifyResult;
  url_Parse : string -> option (string * string);
  securecookie_Encode : gmap string string -> bool
}.

(** * The request and the response writer *)

(** The session cookie of the request: absent, not decodable, or the
    values a previous response stored. *)
Inductive Cookie :=
| NoCookie
| BadCookie (err : string)
| SessionCookie (values : gmap string string).

Record Request := mkRequest {
  Method : string;
  Query : gmap string (list string);
  cookie : Cookie
}.

Inductive HeaderLine :=
| Line (key value : string)
| SetCookie (name : string) (values : gmap string string).

Definition line_key (l : HeaderLine) : string :=
  match l with
  | Line k _ => k
  | SetCookie _ _ => "Set-Cookie"
  end.

Definition Header_Add (key value : string) (h : list HeaderLine) : list HeaderLine :=
  h ++ [Line key value].
Definition Header_Del (key : string) (h : list HeaderLine) : list HeaderLine :=
  filter (fun l => line_key l <> key) h.
Definition Header_Set (key value : string) (h : list HeaderLine) : list HeaderLine :=
  Header_Del key h ++ [Line key value].
Definition Header_has (key : string) (h : list HeaderLine) : bool :=
  bool_decide (Exists (fun l => line_key l = key) h).

Record Login_customData := mkLoginData {
  L_IsAuthenticated : bool;
  L_BaseUrl : string;
  L_ClientId : string;
  L_Issuer : string;
  L_State : string;
  L_Nonce : string;
  L_InteractionHandle : string;
  L_Pkce : option PKCE
}.

Record Profile_customData := mkProfileData {
  P_Profile : gmap string string;
  P_IsAuthenticated : bool
}.

(** What a handler writes to the body: text, the rendering of a template
    on its data, or the link [http.Redirect] writes for a GET. *)
Inductive Chunk :=
| Text (s : string)
| LoginTemplate (name : string) (data : Login_customData)
| ProfileTemplate (name : string) (data : Profile_customData)
| RedirectLink (url : string) (code : nat).

(** [http.ResponseWriter]: the header map, the status and header sent by
    the first [WriteHeader] or [Write] (later changes of the header map do
    not reach the client), and the body. *)
Record ResponseWriter := mkWriter {
  header : list HeaderLine;
  sent : option (nat * list HeaderLine);
  body : list Chunk
}.

Definition WriteHeader (code : nat) (rw : ResponseWriter) : ResponseWriter :=
  match sent rw with
  | Some _ => rw
  | None => mkWriter (header rw) (Some (code, header rw)) (body rw)
  end.

Definition Write (c : Chunk) (rw : ResponseWriter) : ResponseWriter :=
  let rw' := WriteHeader 200 rw in
  mkWriter (header rw') (sent rw') (body rw' ++ [c]).

Definition with_header (f : list HeaderLine -> list HeaderLine) (rw : ResponseWriter)
  : ResponseWriter := mkWriter (f (header rw)) (sent rw) (body rw).

Definition newline : string := String (ascii_of_nat 10) EmptyString.

(** * Handlers as state transformers *)

(** What one handler invocation works on: the process-wide [pkce] pointer,
    the request's session values (one object per request, however often
    [sessionStore.Get] is called), the response writer, the number of
    random bytes drawn and the requests sent to the provider. *)
Record HState := mkH {
  pkce : option PKCE;
  session : gmap string string;
  resp_w : ResponseWriter;
  rand_pos : nat;
  calls : list HttpRequest
}.

(** How a handler stops: it returns, the process exits ([os.Exit],
    [log.Fatalf]), or the goroutine panics. *)
Inductive Stop := Returned | Exited | Panicked.

Inductive Res (A : Type) :=
| Next (a : A) (s : HState)
| Halt (why : Stop) (s : HState).
Arguments Next {A} a s.
Arguments Halt {A} why s.

Definition M (A : Type) : Type := HState -> Res A.

Definition ret {A} (a : A) : M A := fun s => Next a s.
Definition bind {A B} (m : M A) (k : A -> M B) : M B :=
  fun s => match m s with
           | Next a s' => k a s'
           | Halt why s' => Halt why s'
           end.

Declare Scope handler_scope.
Delimit Scope handler_scope with H.
Notation "x <- m ;; k" := (bind m (fun x => k))
  (at level 100, m at next level, k at level 200, right associativity) : handler_scope.
Notation "m ;; k" := (bind m (fun _ => k))
  (at level 100, k at level 200, right associativity) : handler_scope.
Local Open Scope handler_scope.

Definition halt {A} (why : Stop) : M A := fun s => Halt why s.
Definition get {A} (f : HState -> A) : M A := fun s => Next (f s) s.
Definition modify (f : HState -> HState) : M unit := fun s => Next tt (f s).
Definition when (b : bool) (m : M unit) : M unit := if b then m else ret tt.

Definition set_pkce (p : option PKCE) (s : HState) : HState :=
  mkH p (session s) (resp_w s) (rand_pos s) (calls s).
Definition set_session (v : gmap string string) (s : HState) : HState :=
  mkH (pkce s) v (resp_w s) (rand_pos s) (calls s).
Definition set_w (rw : ResponseWriter) (s : HState) : HState :=
  mkH (pkce s) (session s) rw (rand_pos s) (calls s).
Definition set_rand_pos (n : nat) (s : HState) : HState :=
  mkH (pkce s) (session s) (resp_w s) n (calls s).
Definition add_call (q : HttpRequest) (s : HState) : HState :=
  mkH (pkce s) (session s) (resp_w s) (rand_pos s) (calls s ++ [q]).

(** [return] out of the handler, [os.Exit(1)] / [log.Fatalf], and a
    run-time panic (nil dereference, failed type assertion). *)
Definition return_ {A} : M A := halt Returned.
Definition os_Exit {A} : M A := halt Exited.
Definition log_Fatalf {A} : M A := halt Exited.
Definition panic {A} : M A := halt Panicked.

Definition on_w (f : ResponseWriter -> ResponseWriter) : M unit :=
  modify (fun s => set_w (f (resp_w s)) s).

(** [fmt.Fprintln(w, msg)] *)
Definition Fprintln (msg : string) : M unit := on_w (Write (Text (msg +:+ newline))).

(** [http.Error(w, msg, code)] *)
Definition http_Error (msg : string) (code : nat) : M unit :=
  on_w (with_header (Header_Del "Content-Length")) ;;
  on_w (with_header (Header_Set "Content-Type" "text/plain; charset=utf-8")) ;;
  on_w (with_header (Header_Set "X-Content-Type-Options" "nosniff")) ;;
  on_w (WriteHeader code) ;;
  Fprintln msg.

(** [session.Values[key] = value] and [delete(session.Values, key)] *)
Definition Values_set (key value : string) : M unit :=
  modify (fun s => set_session (<[key := value]> (session s)) s).
Definition Values_delete (key : string) : M unit :=
  modify (fun s => set_session (delete key (session s)) s).

(** [v == nil || v == ""] on an entry of [session.Values] *)
Definition nil_or_empty (v : option string) : bool :=
  match v with
  | None => true
  | Some s => bool_decide (s = "")
  end.

(** [v.(string)]: panics on nil. *)
Definition assert_string (v : option string) : M string :=
  match v with
  | Some s => ret s
  | None => panic
  end.

Section Handlers.

Context (cfg : config) (world : World) (r : Request).

(** [sessionStore.Get(r, sessionStoreName)]: the error of decoding the
    cookie; the session itself is [session] of the state. *)
Definition sessionStore_Get : M (option string) :=
  ret (match cookie r with
       | BadCookie err => Some err
       | _ => None
       end).

(** [session.Save(r, w)]: encodes the values and adds the cookie to the
    header; [true] is the error return. *)
Definition session_Save : M bool :=
  v <- get session ;;
  if securecookie_Encode world v
  then on_w (with_header (fun h => h ++ [SetCookie sessionStoreName v])) ;; ret false
  else ret true.

(** [http.Redirect(w, r, url, code)] *)
Definition http_Redirect (url : string) (code : nat) : M unit :=
  hadCT <- get (fun s => Header_has "Content-Type" (header (resp_w s))) ;;
  on_w (with_header (Header_Set "Location" url)) ;;
  when (negb hadCT && (bool_decide (Method r = "GET") || bool_decide (Method r = "HEAD")))
       (on_w (with_header (Header_Set "Content-Type" "text/html; charset=utf-8"))) ;;
  on_w (WriteHeader code) ;;
  when (negb hadCT && bool_decide (Method r = "GET"))
       (on_w (Write (RedirectLink url code))).

(** [client.Do(req)] and the read of the response body *)
Definition client_Do {A} (provider : HttpRequest -> Reply A) (req : HttpRequest)
  : M (Reply A) :=
  modify (add_call req) ;; ret (provider req).

(** [rand.Read] inside the generators *)
Definition draw {A} (n : nat) (gen : Rand -> nat -> option A) : M (option A) :=
  pos <- get rand_pos ;;
  modify (set_rand_pos (pos + n)) ;;
  ret (gen (rand world) pos).

(** Check to see if a user is authenticated based on id_token *)
Definition isAuthenticated : M bool :=
  err <- sessionStore_Get ;;
  v <- get session ;;
  if bool_decide (err <> None) || nil_or_empty (v !! "id_token")
  then ret false
  else ret true.

(** [getInteractionHandle]: the handle and whether an error is returned *)
Definition getInteractionHandle (codeChallenge : string) : M (string * bool) :=
  let data :=
    url_Set "state" state
      (url_Set "redirect_uri" (RedirectURI cfg)
         (url_Set "code_challenge_method" "S256"
            (url_Set "code_challenge" codeChallenge
               (url_Set "scope" (strings_Join (Scopes cfg) " ")
                  (url_Set "client_id" (ClientID cfg) ∅))))) in
  let endpoint := Issuer cfg +:+ "/oauth2/v1/interact" in
  if negb (http_NewRequest world "POST" endpoint) then ret ("", true) else
  let req := mkHttpRequest "POST" endpoint ∅ data
               [("Content-Type", "application/x-www-form-urlencoded")] in
  reply <- client_Do (interact world) req ;;
  match reply with
  | DoError => ret ("", true)
  | Response _ true _ => log_Fatalf
  | Response _ false (Unmarshalled interactionHandle) => ret (interactionHandle, false)
  | Response _ false _ => ret ("", true)
  end.

(** The request [getProfileData] sends. *)
Definition userinfo_request (access_token : string) : HttpRequest :=
  mkHttpRequest "GET" (Issuer cfg +:+ "/oauth2/v1/userinfo") ∅ ∅
    [("Authorization", "Bearer " +:+ access_token);
     ("Accept", "application/json")].

(** [getProfileData] *)
Definition getProfileData : M (gmap string string) :=
  let m : gmap string string := ∅ in
  err <- sessionStore_Get ;;
  v <- get session ;;
  if bool_decide (err <> None) || nil_or_empty (v !! "access_token") then ret m else
  let reqUrl := Issuer cfg +:+ "/oauth2/v1/userinfo" in
  if negb (http_NewRequest world "GET" reqUrl) then panic else
  access_token <- assert_string (v !! "access_token") ;;
  resp <- client_Do (userinfo world) (userinfo_request access_token) ;;
  match resp with
  | DoError => panic
  | Response _ _ SyntaxError => ret m
  | Response _ _ (TypeError stored) => ret stored
  | Response _ _ (Unmarshalled decoded) => ret decoded
  end.

(** [verifyToken]: [true] when it returns a token and no error *)
Definition verifyToken (t : string) : bool :=
  match VerifyIdToken world t with
  | VerifyError => false
  | VerifyJwt => true
  | VerifyNil => false
  end.

Definition HomeHandler : M unit :=
  profile <- getProfileData ;;
  auth <- isAuthenticated ;;
  on_w (Write (ProfileTemplate "home.gohtml" (mkProfileData profile auth))).

Definition ProfileHandler : M unit :=
  profile <- getProfileData ;;
  auth <- isAuthenticated ;;
  on_w (Write (ProfileTemplate "profile.gohtml" (mkProfileData profile auth))).

Definition LogoutHandler : M unit :=
  err <- sessionStore_Get ;;
  match err with Some e => http_Error e 500 | None => ret tt end ;;
  Values_delete "id_token" ;;
  Values_delete "access_token" ;;
  session_Save ;;
  http_Redirect "/" 302.

(** [pkce.Field = session.Values[key].(string)] of the else branch *)
Definition pkce_assign (key : string) (upd : string -> PKCE -> PKCE) : M unit :=
  v <- get session ;;
  x <- assert_string (v !! key) ;;
  p <- get pkce ;;
  match p with
  | None => panic
  | Some p => modify (set_pkce (Some (upd x p)))
  end.

Definition LoginHandler : M unit :=
  on_w (with_header (Header_Add "Cache-Control" "no-cache")) ;;
  err <- sessionStore_Get ;;
  match err with Some e => http_Error e 500 | None => ret tt end ;;
  v <- get session ;;
  (if nil_or_empty (v !! "pkceData") then
     created <- draw 86 createPKCEData ;;
     match created with
     | None => os_Exit
     | Some p =>
         modify (set_pkce (Some p)) ;;
         Values_set "pkce_code_verifier" (CodeVerifier p) ;;
         Values_set "pkce_code_challenge" (CodeChallenge p) ;;
         Values_set "pkce_code_challenge_method" (CodeChallengeMethod p) ;;
         session_Save ;;
         ret tt
     end
   else
     pkce_assign "pkce_code_verifier"
       (fun x p => mkPKCE x (CodeChallenge p) (CodeChallengeMethod p)) ;;
     pkce_assign "pkce_code_challenge"
       (fun x p => mkPKCE (CodeVerifier p) x (CodeChallengeMethod p)) ;;
     pkce_assign "pkce_code_challenge_method"
       (fun x p => mkPKCE (CodeVerifier p) (CodeChallenge p) x)) ;;
  generated <- draw 32 generateNonce ;;
  match generated with
  | None => os_Exit
  | Some nonce =>
      p <- get pkce ;;
      match p with
      | None => panic
      | Some pk =>
          handle <- getInteractionHandle (CodeChallenge pk) ;;
          let interactionHandle := fst handle in
          match url_Parse world (Issuer cfg +:+ "/") with
          | None => os_Exit
          | Some (scheme, hostname) =>
              let baseUrl := scheme +:+ "://" +:+ hostname in
              auth <- isAuthenticated ;;
              p' <- get pkce ;;
              on_w (Write (LoginTemplate "login.gohtml"
                      {| L_IsAuthenticated := auth;
                         L_BaseUrl := baseUrl;
                         L_ClientId := ClientID cfg;
                         L_Issuer := Issuer cfg;
                         L_State := state;
                         L_Nonce := nonce;
                         L_Pkce := p';
                         L_InteractionHandle := interactionHandle |}))
          end
      end
  end.

(** The token request of the callback: the query of the callback request
    without [state], with the grant parameters added. *)
Definition token_request (code_verifier : string) : HttpRequest :=
  let q :=
    url_Add "code_verifier" code_verifier
      (url_Add "client_secret" (ClientSecret cfg)
         (url_Add "client_id" (ClientID cfg)
            (url_Set "interaction_code" (url_Get (Query r) "interaction_code")
               (url_Add "grant_type" "interaction_code"
                  (url_Del "state" (Query r)))))) in
  mkHttpRequest "POST" (Issuer cfg +:+ "/oauth2/v1/token") q ∅
    [("Content-Type", "application/x-www-form-urlencoded")].

Definition LoginCallbackHandler : M unit :=
  (* Check the state that was returned in the query string is the same as the above state *)
  (if bool_decide (url_Get (Query r) "state" <> state)
   then Fprintln "The state was not as expected" ;; return_
   else ret tt) ;;
  (* Make sure the interaction_code was provided *)
  (if bool_decide (url_Get (Query r) "interaction_code" = "")
   then Fprintln "The interaction_code was not returned or is not accessible" ;; return_
   else ret tt) ;;
  err <- sessionStore_Get ;;
  match err with Some e => http_Error e 500 | None => ret tt end ;;
  v <- get session ;;
  (if nil_or_empty (v !! "pkce_code_verifier")
      || nil_or_empty (v !! "pkce_code_challenge")
      || nil_or_empty (v !! "pkce_code_challenge_method")
   then Fprintln "Could not get PKCE Data from session" ;; return_
   else ret tt) ;;
  code_verifier <- assert_string (v !! "pkce_code_verifier") ;;
  let url := Issuer cfg +:+ "/oauth2/v1/token" in
  (if negb (http_NewRequest world "POST" url) then panic else ret tt) ;;
  resp <- client_Do (token world) (token_request code_verifier) ;;
  match resp with
  | DoError => log_Fatalf
  | Response _ true _ => log_Fatalf
  | Response _ false SyntaxError => log_Fatalf
  | Response _ false (TypeError _) => log_Fatalf
  | Response _ false (Unmarshalled exchange) =>
      if negb (verifyToken (IdToken exchange)) then log_Fatalf else
      Values_set "id_token" (IdToken exchange) ;;
      Values_set "access_token" (AccessToken exchange) ;;
      failed <- session_Save ;;
      (if failed then log_Fatalf else ret tt) ;;
      http_Redirect "/" 302
  end.

End Handlers.

(** * The server *)

Inductive Route := Home | Login | LoginCallback | Profile | Logout.

(** The method each route is registered for in [main]. *)
Definition route_method (rt : Route) : string :=
  match rt with
  | Logout => "POST"
  | _ => "GET"
  end.

Definition handler (rt : Route) (cfg : config) (world : World) (r : Request) : M unit :=
  match rt with
  | Home => HomeHandler cfg world r
  | Login => LoginHandler cfg world r
  | LoginCallback => LoginCallbackHandler cfg world r
  | Profile => ProfileHandler cfg world r
  | Logout => LogoutHandler world r
  end.

Definition new_writer : ResponseWriter := mkWriter [] None [].

(** The session of a request: the values of its cookie, or a new and
    empty session when there is no cookie or it does not decode. *)
Definition request_session (r : Request) : gmap string string :=
  match cookie r with
  | SessionCookie v => v
  | _ => ∅
  end.

(** The state a handler starts in. *)
Definition enter (g : option PKCE) (r : Request) : HState :=
  {| pkce := g;
     session := request_session r;
     resp_w := new_writer;
     rand_pos := 0;
     calls := [] |}.

(** Running a handler to its end. *)
Definition run (h : M unit) (s : HState) : Stop * HState :=
  match h s with
  | Next _ s' => (Returned, s')
  | Halt why s' => (why, s')
  end.

Definition serve (rt : Route) (cfg : config) (world : World) (g : option PKCE)
    (r : Request) : Stop * HState :=
  run (handler rt cfg world r) (enter g r).

(** ** What the browser receives *)

(** The server sends status 200 with the current header when a handler
    returns without having written. *)
Definition finish (why : Stop) (rw : ResponseWriter) : ResponseWriter :=
  match why with
  | Returned => WriteHeader 200 rw
  | _ => rw
  end.

(** The session cookie among the header lines sent, the last one winning. *)
Fixpoint sent_cookie (h : list HeaderLine) : option (gmap string string) :=
  match h with
  | [] => None
  | SetCookie _ v :: rest =>
      match sent_cookie rest with
      | Some v' => Some v'
      | None => Some v
      end
  | Line _ _ :: rest => sent_cookie rest
  end.

Definition sent_header (rw : ResponseWriter) : list HeaderLine :=
  match sent rw with
  | Some (_, h) => h
  | None => []
  end.

Definition sent_status (rw : ResponseWriter) : option nat :=
  match sent rw with
  | Some (code, _) => Some code
  | None => None
  end.

(** The [Location] header sent, if any: the response is a redirect. *)
Fixpoint sent_location (h : list HeaderLine) : option string :=
  match h with
  | [] => None
  | Line k v :: rest =>
      if bool_decide (k = "Location") then Some v else sent_location rest
  | SetCookie _ _ :: rest => sent_location rest
  end.

(** The browser's cookie after the response. *)
Definition cookie_after (jar : Cookie) (why : Stop) (s : HState) : Cookie :=
  match sent_cookie (sent_header (finish why (resp_w s))) with
  | Some v => SessionCookie v
  | None => jar
  end.

(** The process-wide [pkce] after the request; a process that exited
    starts again with the zero value. *)
Definition pkce_after (why : Stop) (s : HState) : option PKCE :=
  match why with
  | Exited => None
  | _ => pkce s
  end.

(** One browser against the server: the process-wide [pkce] and the
    browser's cookie.  A step is a request of this browser on a route, or
    a login of another browser, which replaces [pkce]. *)
Inductive step (cfg : config) : option PKCE * Cookie -> option PKCE * Cookie -> Prop :=
| step_request (rt : Route) (world : World) (r : Request) (g : option PKCE) :
    Method r = route_method rt ->
    step cfg (g, cookie r)
         (pkce_after (fst (serve rt cfg world g r)) (snd (serve rt cfg world g r)),
          cookie_after (cookie r) (fst (serve rt cfg world g r)) (snd (serve rt cfg world g r)))
| step_other_browser (g : option PKCE) (jar : Cookie) (p : PKCE) :
    step cfg (g, jar) (Some p, jar).

(** Reachable from a fresh process and a browser without cookie. *)
Definition reachable (cfg : config) (s : option PKCE * Cookie) : Prop :=
  rtc (step cfg) (None, NoCookie) s.

(** ** Sample configuration, provider and requests *)

Definition sample_cfg : config :=
  {| ClientID := "0oa1example";
     ClientSecret := "secret";
     Issuer := "https://dev-1.okta.com/oauth2/default";
     Scopes := ["openid"; "profile"; "email"];
     RedirectURI := "http://localhost:8080/login/callback" |}.

(** A provider that hands out interaction handles; the token and userinfo
    endpoints are given per scenario. *)
Definition sample_world (supply : nat -> byte)
    (token_reply : Reply Exchange) (userinfo_reply : Reply (gmap string string))
    (accepted : string) : World :=
  {| rand := RandSupply supply;
     http_NewRequest := fun _ _ => true;
     interact := fun _ => Response 200 false (Unmarshalled "handle-1");
     token := fun _ => token_reply;
     userinfo := fun _ => userinfo_reply;
     VerifyIdToken := fun t => if bool_decide (t = accepted) then VerifyJwt else VerifyError;
     url_Parse := fun _ => Some ("https", "dev-1.okta.com");
     securecookie_Encode := fun _ => true |}.

Definition callback_query (st code : string) : gmap string (list string) :=
  <["state" := [st]]> (<["interaction_code" := [code]]> ∅).

(** The session a first [/login] of a fresh browser stores, drawing zero
    bytes from the random source. *)
Definition after_login : Cookie :=
  cookie_after NoCookie
    (fst (serve Login sample_cfg (sample_world (fun _ => x00) DoError DoError "") None
            (mkRequest "GET" ∅ NoCookie)))
    (snd (serve Login sample_cfg (sample_world (fun _ => x00) DoError DoError "") None
            (mkRequest "GET" ∅ NoCookie))).

Definition sample_session : gmap string string :=
  <["pkce_code_verifier" := "AAAAAAAAAAAAAAAAAAAAAAAAAAAAAAAAAAAAAAAAAAAAAAAAAAAAAAAAAAAAAAAAAAAAAAAAAAAAAAAAAAAAAAAAAAAAAAAAAAAAAAAAAAAAAAAAAAA"]>
  (<["pkce_code_challenge" := "_9OR1VTOBnKugYoUndVTJfTLkzyXAXuBSJNEdDVdWog"]>
  (<["pkce_code_challenge_method" := "S256"]> ∅)).

Definition token_ok : Exchange :=
  {| Error := ""; ErrorDescription := ""; AccessToken := "AT1"; TokenType := "Bearer";
     ExpiresIn := 3600; Scope := "openid profile email"; IdToken := "IDT1" |}.

(** ** Vocabulary of the statements below *)

(** What the generator gives on a random source of zero bytes. *)
Definition zero_pkce : PKCE :=
  {| CodeVerifier := "AAAAAAAAAAAAAAAAAAAAAAAAAAAAAAAAAAAAAAAAAAAAAAAAAAAAAAAAAAAAAAAAAAAAAAAAAAAAAAAAAAAAAAAAAAAAAAAAAAAAAAAAAAAAAAAAAAA";
     CodeChallenge := "_9OR1VTOBnKugYoUndVTJfTLkzyXAXuBSJNEdDVdWog";
     CodeChallengeMethod := "S256" |}.

(** The messages of the callback's early returns. *)
Definition state_rejection : Chunk :=
  Text ("The state was not as expected" +:+ newline).
Definition code_rejection : Chunk :=
  Text ("The interaction_code was not returned or is not accessible" +:+ newline).
Definition pkce_rejection : Chunk :=
  Text ("Could not get PKCE Data from session" +:+ newline).

(** The writer after [http.Error(w, err.Error(), 500)] on a cookie that
    does not decode; untouched otherwise. *)
Definition cookie_error_writer (r : Request) : ResponseWriter :=
  match cookie r with
  | BadCookie e =>
      Write (Text (e +:+ newline))
        (WriteHeader 500
           (with_header (Header_Set "X-Content-Type-Options" "nosniff")
              (with_header (Header_Set "Content-Type" "text/plain; charset=utf-8")
                 (with_header (Header_Del "Content-Length") new_writer))))
  | _ => new_writer
  end.

(** The three PKCE entries are stored and not empty: the callback's check
    of lines 277-282 passes. *)
Definition pkce_stored (v : gmap string string) : bool :=
  negb (nil_or_empty (v !! "pkce_code_verifier")
        || nil_or_empty (v !! "pkce_code_challenge")
        || nil_or_empty (v !! "pkce_code_challenge_method")).

Definition stored_verifier (r : Request) : string :=
  default "" (request_session r !! "pkce_code_verifier").

(** The callback gets as far as sending the token request. *)
Definition reaches_exchange (cfg : config) (world : World) (r : Request) : Prop :=
  url_Get (Query r) "state" = state /\
  url_Get (Query r) "interaction_code" <> "" /\
  pkce_stored (request_session r) = true /\
  http_NewRequest world "POST" (Issuer cfg +:+ "/oauth2/v1/token") = true.

(** The ways the exchange or the verification of its token fails:
    transport failure, unreadable body, malformed body, invalid token. *)
Inductive exchange_failure (world : World) : Reply Exchange -> Prop :=
| transport_failure :
    exchange_failure world DoError
| unreadable_body status body :
    exchange_failure world (Response status true body)
| malformed_body status :
    exchange_failure world (Response status false SyntaxError)
| mistyped_body status stored :
    exchange_failure world (Response status false (TypeError stored))
| invalid_token status exchange :
    verifyToken world (IdToken exchange) = false ->
    exchange_failure world (Response status false (Unmarshalled exchange)).

(** The session values after a successful exchange. *)
Definition with_tokens (exchange : Exchange) (v : gmap string string) : gmap string string :=
  <["access_token" := AccessToken exchange]> (<["id_token" := IdToken exchange]> v).

(** ** Scenarios *)

Definition world_ok : World :=
  sample_world (fun _ => x01) (Response 200 false (Unmarshalled token_ok)) DoError "IDT1".

Definition callback_request (st : string) (c : Cookie) : Request :=
  mkRequest "GET" (callback_query st "abc123") c.

(** A token response that carries an [error] next to tokens. *)
Definition token_with_error : Exchange :=
  {| Error := "invalid_grant"; ErrorDescription := "The interaction code is invalid";
     AccessToken := "AT1"; TokenType := "Bearer"; ExpiresIn := 3600;
     Scope := "openid"; IdToken := "IDT1" |}.

Definition world_error_field : World :=
  sample_world (fun _ => x01) (Response 400 false (Unmarshalled token_with_error)) DoError "IDT1".

(** A token response without [access_token]. *)
Definition token_without_access : Exchange :=
  {| Error := ""; ErrorDescription := ""; AccessToken := ""; TokenType := "Bearer";
     ExpiresIn := 3600; Scope := "openid"; IdToken := "IDT1" |}.

Definition world_no_access_token : World :=
  sample_world (fun _ => x01) (Response 200 false (Unmarshalled token_without_access)) DoError "IDT1".

(** The provider cannot be reached. *)
Definition world_down : World :=
  sample_world (fun _ => x01) DoError DoError "IDT1".

(** The userinfo endpoint answers 401 with an error document. *)
Definition world_userinfo_401 : World :=
  sample_world (fun _ => x01) DoError
    (Response 401 false (Unmarshalled (<["error" := "invalid_token"]> ∅))) "IDT1".

Definition authenticated_session : gmap string string := with_tokens token_ok sample_session.

(** The session values after [/login] stored the material [p]. *)
Definition with_pkce (p : PKCE) (v : gmap string string) : gmap string string :=
  <["pkce_code_challenge_method" := CodeChallengeMethod p]>
    (<["pkce_code_challenge" := CodeChallenge p]>
       (<["pkce_code_verifier" := CodeVerifier p]> v)).

(** The writer after the cookie is saved and [http.Redirect(w, r, "/", 302)]. *)
Definition redirected (r : Request) (v : gmap string string) : ResponseWriter :=
  let h0 := [SetCookie sessionStoreName v] in
  let h1 := Header_Set "Location" "/" h0 in
  let h2 := if bool_decide (Method r = "GET") || bool_decide (Method r = "HEAD")
            then Header_Set "Content-Type" "text/html; charset=utf-8" h1 else h1 in
  mkWriter h2 (Some (302, h2))
           (if bool_decide (Method r = "GET") then [RedirectLink "/" 302] else []).

(** The [State] fields of the login pages rendered into a body, and the
    [state] parameters of the forms sent to the provider. *)
Fixpoint rendered_states (b : list Chunk) : list string :=
  match b with
  | [] => []
  | LoginTemplate _ d :: rest => L_State d :: rendered_states rest
  | _ :: rest => rendered_states rest
  end.

Definition sent_states (l : list HttpRequest) : list string :=
  map (fun q => url_Get (req_form q) "state") l.

(** The two token entries are stored together or not at all. *)
Definition tokens_paired (c : Cookie) : Prop :=
  match c with
  | SessionCookie v => is_Some (v !! "id_token") <-> is_Some (v !! "access_token")
  | _ => True
  end.

(** The session has no [pkceData] entry, the key line 201 looks up. *)
Definition pkceData_absent (c : Cookie) : Prop :=
  match c with
  | SessionCookie v => v !! "pkceData" = None
  | _ => True
  end.

(** The ways the profile fetch fails and gives the empty mapping: the
    session does not decode, the access token is missing or empty, or the
    body, whatever the status and whether or not it was read to the end,
    is not JSON. *)
Inductive profile_failure (cfg : config) (world : World) (r : Request) (s : HState) : Prop :=
| session_undecodable e :
    cookie r = BadCookie e -> profile_failure cfg world r s
| access_token_missing :
    nil_or_empty (session s !! "access_token") = true -> profile_failure cfg world r s
| body_not_json access_token status readErr :
    (forall e, cookie r <> BadCookie e) ->
    session s !! "access_token" = Some access_token ->
    access_token <> "" ->
    http_NewRequest world "GET" (Issuer cfg +:+ "/oauth2/v1/userinfo") = true ->
    userinfo world (userinfo_request cfg access_token) = Response status readErr SyntaxError ->
    profile_failure cfg world r s.

(** The mapping a call returns, if it returns. *)
Definition returned {A} (res : Res A) : option A :=
  match res with
  | Next a _ => Some a
  | Halt _ _ => None
  end.

(** The material [/login] creates when the random source gives bytes 0x01. *)
Definition ones_pkce : PKCE :=
  {| CodeVerifier := "AQEBAQEBAQEBAQEBAQEBAQEBAQEBAQEBAQEBAQEBAQEBAQEBAQEBAQEBAQEBAQEBAQEBAQEBAQEBAQEBAQEBAQEBAQEBAQEBAQEBAQEBAQEBAQEBAQE";
     CodeChallenge := "m2RB-eqZX9puvVH_bb4eFPoJtk3lefQLx-K3I7zZzzE";
     CodeChallengeMethod := "S256" |}.

Definition login_request (c : Cookie) : Request := mkRequest "GET" ∅ c.

(** The bytes of a digest as numbers. *)
Definition hex_of_bytes (l : list byte) : list N := map Byte.to_N l.

(** * Configuration loading *)

(** [strings.Split(s, ",")]: the pieces of [s] between the separators, one
    more than there are separators; the empty string gives one empty
    piece. *)
Fixpoint strings_Split (s : string) (sep : ascii) : list string :=
  match s with
  | EmptyString => [""]
  | String c rest =>
      if bool_decide (c = sep) then "" :: strings_Split rest sep
      else match strings_Split rest sep with
           | piece :: pieces => String c piece :: pieces
           | [] => [String c ""]
           end
  end.

(** The outcomes of [v.ReadInConfig()]. *)
Inductive ReadInConfig := ConfigRead | ConfigFileNotFound | ConfigReadError.

(** What viper gives [ReadConfig]: the outcome of reading the file, the
    configuration [v.Unmarshal] decodes into the zero [config] ([None] is
    its error), and [v.Get]: the value of a key written with [%v], [None]
    for nil. *)
Record Viper := mkViper {
  v_ReadInConfig : ReadInConfig;
  v_Unmarshal : option config;
  v_Get : string -> option string
}.

(** [fmt.Sprintf("%v", v.Get(key))] *)
Definition Sprintf_v (x : option string) : string :=
  match x with
  | Some s => s
  | None => "<nil>"
  end.

(** [ReadConfig]: [None] is the error return. *)
Definition ReadConfig (v : Viper) : option config :=
  match v_ReadInConfig v with
  | ConfigReadError => None
  | _ =>
      match v_Unmarshal v with
      | None => None
      | Some c =>
          Some {| ClientID :=
                    if bool_decide (ClientID c = "")
                    then Sprintf_v (v_Get v "CLIENTID") else ClientID c;
                  ClientSecret :=
                    if bool_decide (ClientSecret c = "")
                    then Sprintf_v (v_Get v "CLIENTSECRET") else ClientSecret c;
                  Issuer :=
                    if bool_decide (Issuer c = "")
                    then Sprintf_v (v_Get v "ISSUER") else Issuer c;
                  Scopes :=
                    if bool_decide (length (Scopes c) = 0)
                    then strings_Split (Sprintf_v (v_Get v "SCOPES")) ","%char
                    else Scopes c;
                  RedirectURI :=
                    if bool_decide (RedirectURI c = "")
                    then Sprintf_v (v_Get v "REDIRECTURI") else RedirectURI c |}
      end
  end.

(** [validation.Required] on a string and on a slice: not of length 0. *)
Definition Required_string (s : string) : bool := negb (bool_decide (String.length s = 0)).
Definition Required_slice {A} (l : list A) : bool := negb (bool_decide (length l = 0)).

(** [config.Validate]: [true] when it returns nil. *)
Definition Validate (c : config) : bool :=
  Required_string (ClientID c)
  && Required_string (ClientSecret c)
  && Required_string (Issuer c)
  && Required_slice (Scopes c)
  && Required_string (RedirectURI c).

(** * More vocabulary *)

(** The data of the login pages rendered into a body. *)
Fixpoint rendered_logins (b : list Chunk) : list Login_customData :=
  match b with
  | [] => []
  | LoginTemplate _ d :: rest => d :: rendered_logins rest
  | _ :: rest => rendered_logins rest
  end.

(** The data of the home and profile pages rendered into a body. *)
Fixpoint rendered_profiles (b : list Chunk) : list (string * Profile_customData) :=
  match b with
  | [] => []
  | ProfileTemplate name d :: rest => (name, d) :: rendered_profiles rest
  | _ :: rest => rendered_profiles rest
  end.

(** The challenge of a verifier under S256. *)
Definition S256 (code_verifier : string) : string :=
  Base64.RawURLEncoding_EncodeToString (SHA256.Sum256 (bytes_of_string code_verifier)).

(** The PKCE entries of a session are absent, or are a verifier of 115
    characters with its S256 challenge. *)
Definition pkce_entries_consistent (v : gmap string string) : Prop :=
  (v !! "pkce_code_verifier" = None /\
   v !! "pkce_code_challenge" = None /\
   v !! "pkce_code_challenge_method" = None) \/
  (exists cv,
      v !! "pkce_code_verifier" = Some cv /\
      String.length cv = 115 /\
      v !! "pkce_code_challenge" = Some (S256 cv) /\
      v !! "pkce_code_challenge_method" = Some "S256").

Definition pkce_consistent (c : Cookie) : Prop :=
  match c with
  | SessionCookie v => pkce_entries_consistent v
  | NoCookie => True
  | BadCookie _ => False
  end.

(** The ways [getInteractionHandle] returns an error: the request cannot
    be built, the transport fails, or the body does not decode. *)
Inductive interact_error (cfg : config) (world : World) : Prop :=
| interact_no_request :
    http_NewRequest world "POST" (Issuer cfg +:+ "/oauth2/v1/interact") = false ->
    interact_error cfg world
| interact_transport :
    http_NewRequest world "POST" (Issuer cfg +:+ "/oauth2/v1/interact") = true ->
    (forall q, interact world q = DoError) ->
    interact_error cfg world
| interact_malformed :
    http_NewRequest world "POST" (Issuer cfg +:+ "/oauth2/v1/interact") = true ->
    (forall q, exists status, interact world q = Response status false SyntaxError) ->
    interact_error cfg world.

(** The keys the callback writes into the query of the token request. *)
Definition token_keys : list string :=
  ["state"; "grant_type"; "interaction_code"; "client_id"; "client_secret"; "code_verifier"].

(** The characters of unpadded and of padded URL-safe base64. *)
Definition url_safe (c : ascii) : Prop := In c Base64.encodeURL.
Definition url_safe_or_pad (c : ascii) : Prop := In c Base64.encodeURL \/ c = "="%char.

(** [strings.ReplaceAll(s, string(old), new)] for a one-character [old]. *)
Fixpoint replace_char (s : string) (old : ascii) (new : string) : string :=
  match s with
  | EmptyString => ""
  | String c rest =>
      (if bool_decide (c = old) then new else String c "") +:+ replace_char rest old new
  end.

(** The userinfo endpoint answers with a profile. *)
Definition mary_profile : gmap string string :=
  <["email" := "mary@example.com"]> (<["name" := "Mary Smith"]> ∅).

Definition world_userinfo_ok : World :=
  sample_world (fun _ => x01) DoError (Response 200 false (Unmarshalled mary_profile)) "IDT1".

(** The interaction endpoint cannot be reached, or its body cannot be read. *)
Definition world_interact_down : World :=
  {| rand := RandSupply (fun _ => x01);
     http_NewRequest := fun _ _ => true;
     interact := fun _ => DoError;
     token := fun _ => DoError;
     userinfo := fun _ => DoError;
     VerifyIdToken := fun _ => VerifyError;
     url_Parse := fun _ => Some ("https", "dev-1.okta.com");
     securecookie_Encode := fun _ => true |}.

Definition world_interact_unreadable : World :=
  {| rand := RandSupply (fun _ => x01);
     http_NewRequest := fun _ _ => true;
     interact := fun _ => Response 200 true SyntaxError;
     token := fun _ => DoError;
     userinfo := fun _ => DoError;
     VerifyIdToken := fun _ => VerifyError;
     url_Parse := fun _ => Some ("https", "dev-1.okta.com");
     securecookie_Encode := fun _ => true |}.

(** No random bytes. *)
Definition world_no_entropy : World :=
  {| rand := RandUnavailable;
     http_NewRequest := fun _ _ => true;
     interact := fun _ => Response 200 false (Unmarshalled "handle-1");
     token := fun _ => DoError;
     userinfo := fun _ => DoError;
     VerifyIdToken := fun _ => VerifyError;
     url_Parse := fun _ => Some ("https", "dev-1.okta.com");
     securecookie_Encode := fun _ => true |}.

(** The nonce drawn after the verifier when the random source gives 0x01. *)
Definition ones_nonce : string := "AQEBAQEBAQEBAQEBAQEBAQEBAQEBAQEBAQEBAQEBAQE=".

(** The [code_challenge] parameters of the forms sent to the provider. *)
Definition sent_calls_challenges (l : list HttpRequest) : list string :=
  map (fun q => url_Get (req_form q) "code_challenge") l.

(** The cookie codec refuses every session (too long to encode). *)
Definition world_cookie_too_long : World :=
  {| rand := RandSupply (fun _ => x01);
     http_NewRequest := fun _ _ => true;
     interact := fun _ => Response 200 false (Unmarshalled "handle-1");
     token := fun _ => Response 200 false (Unmarshalled token_ok);
     userinfo := fun _ => DoError;
     VerifyIdToken := fun t => if bool_decide (t = "IDT1") then VerifyJwt else VerifyError;
     url_Parse := fun _ => Some ("https", "dev-1.okta.com");
     securecookie_Encode := fun _ => false |}.

(** The index into the alphabet that [sextet] looks up, and the 24-bit
    value [Encode] builds from three source bytes. *)
Definition sextet_index (v k : N) : N := N.land (N.shiftr v k) 63.

Definition group (a b c : byte) : N :=
  N.lor (N.lor (N.shiftl (Byte.to_N a) 16) (N.shiftl (Byte.to_N b) 8)) (Byte.to_N c).

(** * Properties *)

(** ** The PKCE generator *)

Lemma string_of_list_ascii_length (l : list ascii) :
  String.length (string_of_list_ascii l) = length l.
Proof. induction l as [|a l IH]; simpl; [reflexivity | now rewrite IH]. Qed.

(** Three bytes at a time. *)
Lemma list_ind3 {A} (P : list A -> Prop) :
  P [] -> (forall a, P [a]) -> (forall a b, P [a; b]) ->
  (forall a b c l, P l -> P (a :: b :: c :: l)) ->
  forall l, P l.
Proof.
  intros H0 H1 H2 H3 l.
  cut (P l /\ (forall a, P (a :: l)) /\ (forall a b, P (a :: b :: l))).
  { intros [H _]; exact H. }
  induction l as [|x l (IHa & IHb & IHc)]; [now auto|].
  split; [apply IHb|]. split; [intros a; apply IHc|].
  intros a b. apply H3. exact IHa.
Qed.

Lemma encode_raw_length (src : list byte) :
  length (Base64.encode None src) = (4 * length src + 2) / 3.
Proof.
  induction src as [| a | a b | a b c l IH] using list_ind3; try reflexivity.
  cbn [Base64.encode length]. rewrite IH.
  replace (4 * S (S (S (length l))) + 2) with ((4 * length l + 2) + 4 * 3) by lia.
  rewrite Nat.div_add by lia. lia.
Qed.

Lemma RawURLEncoding_length (src : list byte) :
  String.length (Base64.RawURLEncoding_EncodeToString src) = (4 * length src + 2) / 3.
Proof.
  unfold Base64.RawURLEncoding_EncodeToString.
  now rewrite string_of_list_ascii_length, encode_raw_length.
Qed.

Lemma rand_Read_length r pos n bs :
  rand_Read r pos n = Some bs -> length bs = n.
Proof.
  destruct r as [|f]; simpl; [discriminate|].
  intros [= <-]. now rewrite length_map, length_seq.
Qed.

Lemma createCodeVerifier_length r pos s :
  createCodeVerifier r pos = Some s -> String.length s = 115.
Proof.
  unfold createCodeVerifier.
  destruct (rand_Read r pos 86) as [bs|] eqn:E; [|discriminate].
  intros [= <-]. rewrite RawURLEncoding_length, (rand_Read_length _ _ _ _ E).
  reflexivity.
Qed.

(** The generator fails only when the random source does. *)
Lemma createPKCEData_total supply pos :
  exists p, createPKCEData (RandSupply supply) pos = Some p.
Proof. unfold createPKCEData, createCodeVerifier. simpl. eauto. Qed.

Lemma createPKCEData_unavailable pos : createPKCEData RandUnavailable pos = None.
Proof. reflexivity. Qed.

(** Test vectors: FIPS 180-2 appendix B.1 and RFC 7636 appendix B. *)

Example sha256_abc :
  hex_of_bytes (SHA256.Sum256 (bytes_of_string "abc")) =
  [0xba; 0x78; 0x16; 0xbf; 0x8f; 0x01; 0xcf; 0xea; 0x41; 0x41; 0x40; 0xde;
   0x5d; 0xae; 0x22; 0x23; 0xb0; 0x03; 0x61; 0xa3; 0x96; 0x17; 0x7a; 0x9c;
   0xb4; 0x10; 0xff; 0x61; 0xf2; 0x00; 0x15; 0xad]%N.
Proof. vm_compute. reflexivity. Qed.

(** The S256 example of RFC 7636, appendix B. *)
Example rfc7636_appendix_B :
  Base64.RawURLEncoding_EncodeToString
    (SHA256.Sum256 (bytes_of_string "dBjftJeZ4CVP-mB92K27uhbUJU1p1r_wW1gFWFOEjXk"))
  = "E9Melhoa2OwvFrEMTJguCHaoeK1t8URWbuGJSstw-cM".
Proof. vm_compute. reflexivity. Qed.

(** ** Running handlers symbolically *)

Ltac unfold_ops :=
  cbv [bind ret get modify when halt return_ os_Exit log_Fatalf panic on_w
       Fprintln http_Error Values_set Values_delete assert_string
       sessionStore_Get session_Save http_Redirect client_Do draw
       set_pkce set_session set_w set_rand_pos add_call
       pkce session resp_w rand_pos calls].

Lemma nil_or_empty_false v :
  nil_or_empty v = false <-> exists s, v = Some s /\ s <> "".
Proof.
  destruct v as [s|]; simpl.
  - rewrite bool_decide_eq_false. split; [eauto|]. now intros (? & [= <-] & ?).
  - split; [discriminate|]. now intros (? & ? & ?).
Qed.

Lemma pkce_stored_empty : pkce_stored ∅ = false.
Proof. reflexivity. Qed.

Lemma pkce_stored_verifier v :
  pkce_stored v = true ->
  exists cv, v !! "pkce_code_verifier" = Some cv /\ cv <> "".
Proof.
  unfold pkce_stored. rewrite negb_true_iff, !orb_false_iff.
  intros [[H _] _]. now apply nil_or_empty_false.
Qed.

(** A request that reaches the exchange carries a decodable cookie. *)
Lemma reaches_exchange_cookie cfg world r :
  reaches_exchange cfg world r ->
  cookie r = SessionCookie (request_session r) /\
  request_session r !! "pkce_code_verifier" = Some (stored_verifier r).
Proof.
  intros (_ & _ & Hp & _). unfold stored_verifier.
  destruct (pkce_stored_verifier _ Hp) as (cv & -> & _). split; [|reflexivity].
  unfold request_session in *.
  destruct (cookie r); [discriminate Hp | discriminate Hp | reflexivity].
Qed.

Ltac callback_prefix Hreach :=
  let Hst := fresh "Hst" in let Hcode := fresh "Hcode" in
  let Hp := fresh "Hp" in let Hnew := fresh "Hnew" in
  let Hc := fresh "Hc" in let Hv := fresh "Hv" in
  pose proof Hreach as (Hst & Hcode & Hp & Hnew);
  pose proof (reaches_exchange_cookie _ _ _ Hreach) as [Hc Hv];
  unfold serve, run, handler, LoginCallbackHandler, enter;
  unfold_ops;
  rewrite (bool_decide_false _ (fun H => H Hst));
  rewrite (bool_decide_false _ Hcode);
  rewrite Hc; unfold pkce_stored in Hp; apply negb_true_iff in Hp;
  rewrite Hp, Hv, Hnew; cbn [negb].

(** ** The callback: the checks before the exchange *)

Lemma callback_state_mismatch cfg world g r :
  url_Get (Query r) "state" <> state ->
  serve LoginCallback cfg world g r =
    (Returned, set_w (Write state_rejection new_writer) (enter g r)).
Proof.
  intros Hne. unfold serve, run, handler, LoginCallbackHandler.
  unfold_ops. rewrite bool_decide_true by exact Hne. reflexivity.
Qed.

Lemma callback_code_missing cfg world g r :
  url_Get (Query r) "state" = state ->
  url_Get (Query r) "interaction_code" = "" ->
  serve LoginCallback cfg world g r =
    (Returned, set_w (Write code_rejection new_writer) (enter g r)).
Proof.
  intros Hst Hcode. unfold serve, run, handler, LoginCallbackHandler.
  unfold_ops.
  rewrite (bool_decide_false _ (fun H => H Hst)).
  rewrite (bool_decide_true _ Hcode). reflexivity.
Qed.

Lemma callback_pkce_missing cfg world g r :
  url_Get (Query r) "state" = state ->
  url_Get (Query r) "interaction_code" <> "" ->
  pkce_stored (request_session r) = false ->
  serve LoginCallback cfg world g r =
    (Returned, set_w (Write pkce_rejection (cookie_error_writer r)) (enter g r)).
Proof.
  intros Hst Hcode Hmiss. unfold serve, run, handler, LoginCallbackHandler.
  unfold_ops.
  rewrite (bool_decide_false _ (fun H => H Hst)).
  rewrite (bool_decide_false _ Hcode).
  unfold pkce_stored in Hmiss. apply negb_false_iff in Hmiss.
  unfold cookie_error_writer, enter.
  destruct (cookie r) as [|e|v]; cbn [resp_w session]; rewrite Hmiss; reflexivity.
Qed.

Lemma callback_request_fails cfg world g r :
  url_Get (Query r) "state" = state ->
  url_Get (Query r) "interaction_code" <> "" ->
  pkce_stored (request_session r) = true ->
  http_NewRequest world "POST" (Issuer cfg +:+ "/oauth2/v1/token") = false ->
  serve LoginCallback cfg world g r = (Panicked, enter g r).
Proof.
  intros Hst Hcode Hp Hnew.
  assert (cookie r = SessionCookie (request_session r)) as Hc.
  { unfold request_session in *.
    destruct (cookie r); [discriminate Hp | discriminate Hp | reflexivity]. }
  destruct (pkce_stored_verifier _ Hp) as (cv & Hv & _).
  unfold serve, run, handler, LoginCallbackHandler, enter. unfold_ops.
  rewrite (bool_decide_false _ (fun H => H Hst)).
  rewrite (bool_decide_false _ Hcode).
  rewrite Hc. unfold pkce_stored in Hp. apply negb_true_iff in Hp.
  rewrite Hp, Hv, Hnew. reflexivity.
Qed.

(** ** The callback: the exchange *)

Lemma callback_exchange_fails cfg world g r :
  reaches_exchange cfg world r ->
  exchange_failure world (token world (token_request cfg r (stored_verifier r))) ->
  serve LoginCallback cfg world g r =
    (Exited, add_call (token_request cfg r (stored_verifier r)) (enter g r)).
Proof.
  intros Hreach Hfail. callback_prefix Hreach.
  unfold enter, add_call; cbn [pkce session resp_w rand_pos calls app].
  inversion Hfail as [E | ? ? E | ? E | ? ? E | ? ? Hver E]; try reflexivity.
  rewrite Hver. reflexivity.
Qed.

Lemma callback_exchange_succeeds cfg world g r status exchange :
  reaches_exchange cfg world r ->
  token world (token_request cfg r (stored_verifier r))
    = Response status false (Unmarshalled exchange) ->
  verifyToken world (IdToken exchange) = true ->
  securecookie_Encode world (with_tokens exchange (request_session r)) = true ->
  serve LoginCallback cfg world g r =
    (Returned,
     mkH g (with_tokens exchange (request_session r))
         (redirected r (with_tokens exchange (request_session r)))
         0 [token_request cfg r (stored_verifier r)]).
Proof.
  intros Hreach Htok Hver Henc. callback_prefix Hreach.
  rewrite Htok, Hver. cbn [negb]. fold (with_tokens exchange (request_session r)).
  rewrite Henc. unfold redirected.
  cbn [resp_w header new_writer with_header app Header_has].
  destruct (bool_decide (Method r = "GET")); destruct (bool_decide (Method r = "HEAD"));
    reflexivity.
Qed.

Lemma callback_save_fails cfg world g r status exchange :
  reaches_exchange cfg world r ->
  token world (token_request cfg r (stored_verifier r))
    = Response status false (Unmarshalled exchange) ->
  verifyToken world (IdToken exchange) = true ->
  securecookie_Encode world (with_tokens exchange (request_session r)) = false ->
  fst (serve LoginCallback cfg world g r) = Exited /\
  resp_w (snd (serve LoginCallback cfg world g r)) = new_writer.
Proof.
  intros Hreach Htok Hver Henc. callback_prefix Hreach.
  rewrite Htok, Hver. cbn [negb]. fold (with_tokens exchange (request_session r)).
  rewrite Henc. split; reflexivity.
Qed.

(** ** The login page *)

Ltac login_unfold :=
  unfold serve, run, handler, LoginHandler, getInteractionHandle, isAuthenticated, enter;
  unfold_ops.

Ltac split_cases :=
  repeat match goal with
         | |- context [match ?x with _ => _ end] =>
             lazymatch x with
             | context [match _ with _ => _ end] => fail
             | _ => destruct x eqn:?
             end
         end.

(** With no [pkceData] entry in the session, [/login] creates material
    from the random source and stores it over whatever the session held. *)
Lemma login_creates cfg world g r p :
  nil_or_empty (request_session r !! "pkceData") = true ->
  createPKCEData (rand world) 0 = Some p ->
  exists why rw pos sent_calls,
    serve Login cfg world g r =
      (why, mkH (Some p) (with_pkce p (request_session r)) rw pos sent_calls) /\
    why <> Panicked.
Proof.
  intros Hnil Hp. login_unfold. unfold with_pkce.
  destruct (cookie r) as [|e|v] eqn:Hc; cbn [resp_w session];
    rewrite Hnil, Hp; split_cases; do 4 eexists; (split; [reflexivity|]); discriminate.
Qed.

(** Every path of a handler: the conclusion is set aside while the
    handler is unfolded and split along its tests. *)
Ltac all_paths E :=
  match type of E with
  | _ = (?why, ?st) =>
      pattern why, st;
      match goal with |- ?P _ _ => let Q := fresh "Q" in set (Q := P) end
  end;
  revert E;
  unfold serve, run, handler, LoginHandler, LoginCallbackHandler, LogoutHandler,
    HomeHandler, ProfileHandler, getProfileData, pkce_assign,
    getInteractionHandle, isAuthenticated, verifyToken, enter, request_session;
  unfold_ops; split_cases; intros [= <- <-];
  match goal with Q := _ |- _ => subst Q; cbv beta end;
  unfold with_pkce, with_tokens, request_session;
  repeat match goal with H : cookie _ = _ |- _ => rewrite H end.

Lemma login_cookie_after cfg world g r why st :
  serve Login cfg world g r = (why, st) ->
  cookie_after (cookie r) why st = cookie r \/
  exists p, cookie_after (cookie r) why st = SessionCookie (with_pkce p (request_session r)).
Proof.
  intros E. all_paths E;
    first [left; reflexivity | right; eexists; reflexivity].
Qed.

Lemma callback_cookie_after cfg world g r why st :
  serve LoginCallback cfg world g r = (why, st) ->
  cookie_after (cookie r) why st = cookie r \/
  exists exchange,
    cookie_after (cookie r) why st = SessionCookie (with_tokens exchange (request_session r)).
Proof.
  intros E. all_paths E;
    first [left; reflexivity | right; eexists; reflexivity].
Qed.

Lemma logout_cookie_after cfg world g r why st :
  serve Logout cfg world g r = (why, st) ->
  cookie_after (cookie r) why st = cookie r \/
  cookie_after (cookie r) why st =
    SessionCookie (delete "access_token" (delete "id_token" (request_session r))).
Proof.
  intros E. all_paths E;
    first [left; reflexivity | right; reflexivity].
Qed.

Lemma home_cookie_after cfg world g r why st :
  serve Home cfg world g r = (why, st) -> cookie_after (cookie r) why st = cookie r.
Proof. intros E. all_paths E; reflexivity. Qed.

Lemma profile_cookie_after cfg world g r why st :
  serve Profile cfg world g r = (why, st) -> cookie_after (cookie r) why st = cookie r.
Proof. intros E. all_paths E; reflexivity. Qed.

(** ** The profile fetch *)

Lemma getProfileData_no_token cfg world r s :
  (exists e, cookie r = BadCookie e) \/ nil_or_empty (session s !! "access_token") = true ->
  getProfileData cfg world r s = Next ∅ s.
Proof.
  intros H. destruct s as [gp sv rw pos cl]. cbn [session] in H.
  unfold getProfileData. unfold_ops.
  destruct H as [[e ->] | ->]; [reflexivity|].
  now rewrite orb_true_r.
Qed.

Lemma getProfileData_sends cfg world r s access_token :
  (forall e, cookie r <> BadCookie e) ->
  session s !! "access_token" = Some access_token ->
  access_token <> "" ->
  http_NewRequest world "GET" (Issuer cfg +:+ "/oauth2/v1/userinfo") = true ->
  getProfileData cfg world r s =
    match userinfo world (userinfo_request cfg access_token) with
    | DoError => Halt Panicked (add_call (userinfo_request cfg access_token) s)
    | Response _ _ SyntaxError => Next ∅ (add_call (userinfo_request cfg access_token) s)
    | Response _ _ (TypeError m) => Next m (add_call (userinfo_request cfg access_token) s)
    | Response _ _ (Unmarshalled m) => Next m (add_call (userinfo_request cfg access_token) s)
    end.
Proof.
  intros Hc Hat Hne Hnew. destruct s as [gp sv rw pos cl]. cbn [session] in Hat.
  unfold getProfileData. unfold_ops.
  rewrite Hat, Hnew. cbn [nil_or_empty negb].
  rewrite (bool_decide_false _ Hne), orb_false_r.
  assert (bool_decide
            (match cookie r with BadCookie err => Some err | _ => None end <> None) = false) as ->.
  { apply bool_decide_eq_false. intros H. apply H.
    destruct (cookie r) as [|e|v]; [reflexivity | now destruct (Hc e) | reflexivity]. }
  unfold add_call. cbn [pkce session resp_w rand_pos calls].
  destruct (userinfo world (userinfo_request cfg access_token)) as [|status rerr [|m|m]];
    reflexivity.
Qed.

(** A transport failure leaves [resp] nil and [resp.Body] panics. *)
Lemma getProfileData_transport_failure cfg world r s access_token :
  (forall e, cookie r <> BadCookie e) ->
  session s !! "access_token" = Some access_token ->
  access_token <> "" ->
  http_NewRequest world "GET" (Issuer cfg +:+ "/oauth2/v1/userinfo") = true ->
  userinfo world (userinfo_request cfg access_token) = DoError ->
  getProfileData cfg world r s =
    Halt Panicked (add_call (userinfo_request cfg access_token) s).
Proof.
  intros Hc Hat Hne Hnew Hdo.
  rewrite (getProfileData_sends cfg world r s access_token Hc Hat Hne Hnew), Hdo.
  reflexivity.
Qed.

(** The status code plays no part in the result. *)
Lemma getProfileData_ignores_status cfg world r s access_token status readErr m :
  (forall e, cookie r <> BadCookie e) ->
  session s !! "access_token" = Some access_token ->
  access_token <> "" ->
  http_NewRequest world "GET" (Issuer cfg +:+ "/oauth2/v1/userinfo") = true ->
  userinfo world (userinfo_request cfg access_token)
    = Response status readErr (Unmarshalled m) ->
  getProfileData cfg world r s = Next m (add_call (userinfo_request cfg access_token) s).
Proof.
  intros Hc Hat Hne Hnew Hresp.
  rewrite (getProfileData_sends cfg world r s access_token Hc Hat Hne Hnew), Hresp.
  reflexivity.
Qed.

(** ** The state value *)

Lemma login_state cfg world g r why st :
  serve Login cfg world g r = (why, st) ->
  Forall (fun s => s = "ApplicationState") (rendered_states (body (resp_w st))) /\
  Forall (fun s => s = "ApplicationState") (sent_states (calls st)).
Proof.
  intros E. all_paths E; split; vm_compute; repeat constructor.
Qed.

Lemma callback_state_accepted cfg world g r :
  url_Get (Query r) "state" = state ->
  serve LoginCallback cfg world g r
    <> (Returned, set_w (Write state_rejection new_writer) (enter g r)).
Proof.
  intros Hst. unfold serve, run, handler, LoginCallbackHandler, verifyToken, enter.
  unfold_ops. rewrite (bool_decide_false _ (fun H => H Hst)).
  split_cases; intros H; try discriminate H.
Qed.

(** ** Sessions a browser can hold *)

Lemma tokens_paired_request r :
  tokens_paired (cookie r) ->
  is_Some (request_session r !! "id_token") <-> is_Some (request_session r !! "access_token").
Proof.
  unfold tokens_paired, request_session.
  destruct (cookie r); [| | tauto];
    intros _; rewrite !lookup_empty; split; intros [? [=]].
Qed.

Lemma serve_keeps_tokens_paired rt cfg world g r :
  tokens_paired (cookie r) ->
  tokens_paired (cookie_after (cookie r) (fst (serve rt cfg world g r))
                   (snd (serve rt cfg world g r))).
Proof.
  intros Hinv. pose proof (tokens_paired_request r Hinv) as Hreq.
  destruct (serve rt cfg world g r) as [why st] eqn:E. cbn [fst snd].
  destruct rt.
  - now rewrite (home_cookie_after _ _ _ _ _ _ E).
  - destruct (login_cookie_after _ _ _ _ _ _ E) as [-> | [p ->]]; [exact Hinv|].
    unfold tokens_paired, with_pkce. now rewrite !lookup_insert_ne by discriminate.
  - destruct (callback_cookie_after _ _ _ _ _ _ E) as [-> | [ex ->]]; [exact Hinv|].
    unfold tokens_paired, with_tokens.
    rewrite lookup_insert_eq, lookup_insert_ne, lookup_insert_eq by discriminate.
    split; eauto.
  - now rewrite (profile_cookie_after _ _ _ _ _ _ E).
  - destruct (logout_cookie_after _ _ _ _ _ _ E) as [-> | ->]; [exact Hinv|].
    unfold tokens_paired.
    rewrite lookup_delete_ne, lookup_delete_eq, lookup_delete_eq by discriminate.
    split; intros [? [=]].
Qed.

Lemma pkceData_absent_request r :
  pkceData_absent (cookie r) -> request_session r !! "pkceData" = None.
Proof.
  unfold pkceData_absent, request_session.
  destruct (cookie r); [| | tauto]; intros _; apply lookup_empty.
Qed.

Lemma serve_keeps_pkceData_absent rt cfg world g r :
  pkceData_absent (cookie r) ->
  pkceData_absent (cookie_after (cookie r) (fst (serve rt cfg world g r))
                     (snd (serve rt cfg world g r))).
Proof.
  intros Hinv. pose proof (pkceData_absent_request r Hinv) as Hreq.
  destruct (serve rt cfg world g r) as [why st] eqn:E. cbn [fst snd].
  destruct rt.
  - now rewrite (home_cookie_after _ _ _ _ _ _ E).
  - destruct (login_cookie_after _ _ _ _ _ _ E) as [-> | [p ->]]; [exact Hinv|].
    unfold pkceData_absent, with_pkce. now rewrite !lookup_insert_ne by discriminate.
  - destruct (callback_cookie_after _ _ _ _ _ _ E) as [-> | [ex ->]]; [exact Hinv|].
    unfold pkceData_absent, with_tokens. now rewrite !lookup_insert_ne by discriminate.
  - now rewrite (profile_cookie_after _ _ _ _ _ _ E).
  - destruct (logout_cookie_after _ _ _ _ _ _ E) as [-> | ->]; [exact Hinv|].
    unfold pkceData_absent. now rewrite !lookup_delete_ne by discriminate.
Qed.

Lemma reachable_invariant cfg (P : Cookie -> Prop) :
  P NoCookie ->
  (forall rt world g r,
      P (cookie r) ->
      P (cookie_after (cookie r) (fst (serve rt cfg world g r))
           (snd (serve rt cfg world g r)))) ->
  forall s, reachable cfg s -> P (snd s).
Proof.
  intros H0 Hstep s Hreach. unfold reachable in Hreach.
  apply (rtc_ind_r (R := step cfg) (fun s => P (snd s)) (None, NoCookie)); [exact H0 | | exact Hreach].
  intros y z _ Hyz IH.
  inversion Hyz as [rt world r g Hm Ex Ey | g jar p Ex Ey]; subst; cbn [snd] in *.
  - now apply Hstep.
  - exact IH.
Qed.

(** No reachable session has a [pkceData] entry: the guard of line 201 is
    true on every request a browser of this server can send. *)
Lemma reachable_pkceData_absent cfg s :
  reachable cfg s -> pkceData_absent (snd s).
Proof.
  apply reachable_invariant; [exact I|].
  intros rt world g r. apply serve_keeps_pkceData_absent.
Qed.

(** The sample callback request gets as far as the exchange. *)
Lemma sample_reaches_exchange (world_token : Reply Exchange) :
  reaches_exchange sample_cfg (sample_world (fun _ => x01) world_token DoError "IDT1")
    (callback_request "ApplicationState" (SessionCookie sample_session)).
Proof.
  repeat split; try (vm_compute; reflexivity). vm_compute. discriminate.
Qed.

(** Every [/login] a browser of this server can send creates material:
    the branch of lines 212-214 is dead. *)
Lemma login_always_creates cfg world g g' r p :
  reachable cfg (g, cookie r) ->
  createPKCEData (rand world) 0 = Some p ->
  session (snd (serve Login cfg world g' r)) = with_pkce p (request_session r).
Proof.
  intros Hreach Hp.
  pose proof (reachable_pkceData_absent cfg _ Hreach) as Habs. cbn [snd] in Habs.
  pose proof (pkceData_absent_request r Habs) as Hnone.
  assert (nil_or_empty (request_session r !! "pkceData") = true) as Hnil
    by (rewrite Hnone; reflexivity).
  destruct (login_creates cfg world g' r p Hnil Hp) as (why & rw & pos & cl & -> & _).
  reflexivity.
Qed.

(** * The claims *)

(** ** C5: the PKCE generator *)

(** C5: whatever the generator produces, the code challenge is the
    unpadded base64url encoding of the SHA-256 hash of the code verifier,
    the method is S256, and the code verifier is the unpadded base64url
    encoding of the 86 random bytes drawn, so that its length (115) lies
    within 43..128. *)
Theorem createPKCEData_challenge_and_length (r : Rand) (pos : nat) (p : PKCE) :
  createPKCEData r pos = Some p ->
  CodeChallenge p =
    Base64.RawURLEncoding_EncodeToString (SHA256.Sum256 (bytes_of_string (CodeVerifier p))) /\
  CodeChallengeMethod p = "S256" /\
  (exists codeVerifier : list byte,
      rand_Read r pos 86 = Some codeVerifier /\
      length codeVerifier = 86 /\
      CodeVerifier p = Base64.RawURLEncoding_EncodeToString codeVerifier) /\
  43 <= String.length (CodeVerifier p) <= 128.
Proof.
  unfold createPKCEData.
  destruct (createCodeVerifier r pos) as [s|] eqn:E; [|discriminate].
  intros [= <-]. cbn [CodeChallenge CodeVerifier CodeChallengeMethod].
  split; [reflexivity|]. split; [reflexivity|]. split.
  - unfold createCodeVerifier in E.
    destruct (rand_Read r pos 86) as [bs|] eqn:R; [|discriminate].
    injection E as <-. exists bs. split; [reflexivity|].
    split; [exact (rand_Read_length _ _ _ _ R) | reflexivity].
  - rewrite (createCodeVerifier_length _ _ _ E). lia.
Qed.

Lemma createPKCEData_challenge_and_length_witness :
  createPKCEData (RandSupply (fun _ => x00)) 0 = Some zero_pkce /\
  CodeChallenge zero_pkce =
    Base64.RawURLEncoding_EncodeToString
      (SHA256.Sum256 (bytes_of_string (CodeVerifier zero_pkce))) /\
  43 <= String.length (CodeVerifier zero_pkce) <= 128.
Proof.
  split; [vm_compute; reflexivity|].
  assert (createPKCEData (RandSupply (fun _ => x00)) 0 = Some zero_pkce) as E
    by (vm_compute; reflexivity).
  pose proof (createPKCEData_challenge_and_length _ _ _ E) as (Hc & _ & _ & Hl).
  split; [exact Hc | exact Hl].
Defined.

(** ** C2 and C4: the checks of the callback *)

(** C2: a callback whose [state] parameter differs from the issued state
    returns at once, whatever [interaction_code] is: no request is sent to
    the provider, the session values and the browser's cookie stay as they
    were, nothing redirects, and the body is the rejection message. *)
Theorem callback_rejects_state_mismatch
    (cfg : config) (world : World) (g : option PKCE) (r : Request) :
  url_Get (Query r) "state" <> state ->
  fst (serve LoginCallback cfg world g r) = Returned /\
  calls (snd (serve LoginCallback cfg world g r)) = [] /\
  session (snd (serve LoginCallback cfg world g r)) = request_session r /\
  cookie_after (cookie r) (fst (serve LoginCallback cfg world g r))
    (snd (serve LoginCallback cfg world g r)) = cookie r /\
  sent_location (sent_header (resp_w (snd (serve LoginCallback cfg world g r)))) = None /\
  body (resp_w (snd (serve LoginCallback cfg world g r))) = [state_rejection].
Proof.
  intros Hne. rewrite (callback_state_mismatch cfg world g r Hne).
  repeat split.
Qed.

Lemma callback_rejects_state_mismatch_witness :
  url_Get (Query (callback_request "WrongState" (SessionCookie sample_session))) "state"
    <> state /\
  body (resp_w (snd (serve LoginCallback sample_cfg world_ok None
                       (callback_request "WrongState" (SessionCookie sample_session)))))
    = [state_rejection] /\
  calls (snd (serve LoginCallback sample_cfg world_ok None
                (callback_request "WrongState" (SessionCookie sample_session)))) = [].
Proof.
  assert (url_Get (Query (callback_request "WrongState" (SessionCookie sample_session)))
            "state" <> state) as Hne by (vm_compute; discriminate).
  split; [exact Hne|].
  pose proof (callback_rejects_state_mismatch sample_cfg world_ok None
                (callback_request "WrongState" (SessionCookie sample_session)) Hne)
    as (_ & Hcalls & _ & _ & _ & Hbody).
  split; [exact Hbody | exact Hcalls].
Defined.

(** C4: a callback that passes the [state] and [interaction_code] checks
    but whose session lacks one of the three PKCE entries (absent or
    empty) is rejected: no request is sent to the provider, the session
    values and the cookie stay as they were, nothing redirects, and the
    body ends with the rejection message. *)
Theorem callback_rejects_missing_pkce
    (cfg : config) (world : World) (g : option PKCE) (r : Request) :
  url_Get (Query r) "state" = state ->
  url_Get (Query r) "interaction_code" <> "" ->
  nil_or_empty (request_session r !! "pkce_code_verifier") = true \/
  nil_or_empty (request_session r !! "pkce_code_challenge") = true \/
  nil_or_empty (request_session r !! "pkce_code_challenge_method") = true ->
  fst (serve LoginCallback cfg world g r) = Returned /\
  calls (snd (serve LoginCallback cfg world g r)) = [] /\
  session (snd (serve LoginCallback cfg world g r)) = request_session r /\
  cookie_after (cookie r) (fst (serve LoginCallback cfg world g r))
    (snd (serve LoginCallback cfg world g r)) = cookie r /\
  sent_location (sent_header (resp_w (snd (serve LoginCallback cfg world g r)))) = None /\
  body (resp_w (snd (serve LoginCallback cfg world g r)))
    = body (cookie_error_writer r) ++ [pkce_rejection].
Proof.
  intros Hst Hcode Hmiss.
  assert (pkce_stored (request_session r) = false) as Hp.
  { unfold pkce_stored. apply negb_false_iff.
    destruct Hmiss as [H|[H|H]]; rewrite H; rewrite ?orb_true_r; reflexivity. }
  rewrite (callback_pkce_missing cfg world g r Hst Hcode Hp).
  unfold cookie_error_writer. destruct (cookie r) as [|e|v]; repeat split.
Qed.

Lemma callback_rejects_missing_pkce_witness :
  body (resp_w (snd (serve LoginCallback sample_cfg world_ok None
                       (callback_request "ApplicationState" NoCookie))))
    = [pkce_rejection] /\
  calls (snd (serve LoginCallback sample_cfg world_ok None
                (callback_request "ApplicationState" NoCookie))) = [].
Proof.
  assert (url_Get (Query (callback_request "ApplicationState" NoCookie)) "state" = state)
    as Hst by (vm_compute; reflexivity).
  assert (url_Get (Query (callback_request "ApplicationState" NoCookie)) "interaction_code"
          <> "") as Hcode by (vm_compute; discriminate).
  assert (nil_or_empty
            (request_session (callback_request "ApplicationState" NoCookie)
               !! "pkce_code_verifier") = true) as Hmiss by (vm_compute; reflexivity).
  pose proof (callback_rejects_missing_pkce sample_cfg world_ok None
                (callback_request "ApplicationState" NoCookie) Hst Hcode (or_introl Hmiss))
    as (_ & Hcalls & _ & _ & _ & Hbody).
  split; [exact Hbody | exact Hcalls].
Defined.

(** ** C1: a token response with an [error] field *)

(** C1 (the code departs from the claim): the callback never reads
    [exchange.Error].  On a token response that carries a non-empty
    [error] together with an [id_token] the verifier accepts, it stores
    both tokens, saves the cookie and redirects. *)
Theorem callback_stores_tokens_despite_error_field :
  Error token_with_error = "invalid_grant" /\
  token world_error_field
    (token_request sample_cfg (callback_request "ApplicationState" (SessionCookie sample_session))
       (CodeVerifier zero_pkce))
    = Response 400 false (Unmarshalled token_with_error) /\
  fst (serve LoginCallback sample_cfg world_error_field None
         (callback_request "ApplicationState" (SessionCookie sample_session))) = Returned /\
  session (snd (serve LoginCallback sample_cfg world_error_field None
                  (callback_request "ApplicationState" (SessionCookie sample_session))))
    !! "id_token" = Some "IDT1" /\
  session (snd (serve LoginCallback sample_cfg world_error_field None
                  (callback_request "ApplicationState" (SessionCookie sample_session))))
    !! "access_token" = Some "AT1" /\
  cookie_after (SessionCookie sample_session) Returned
    (snd (serve LoginCallback sample_cfg world_error_field None
            (callback_request "ApplicationState" (SessionCookie sample_session))))
    = SessionCookie (with_tokens token_with_error sample_session) /\
  sent_location (sent_header (resp_w
    (snd (serve LoginCallback sample_cfg world_error_field None
            (callback_request "ApplicationState" (SessionCookie sample_session))))))
    = Some "/".
Proof. vm_compute. repeat split. Qed.

(** ** C3: the PKCE entries after a successful exchange *)

(** C3 as stated fails: the session saved by a successful callback still
    holds the verifier, the challenge and the method. *)
Lemma callback_keeps_pkce_example :
  fst (serve LoginCallback sample_cfg world_ok None
         (callback_request "ApplicationState" (SessionCookie sample_session))) = Returned /\
  sent_location (sent_header (resp_w
    (snd (serve LoginCallback sample_cfg world_ok None
            (callback_request "ApplicationState" (SessionCookie sample_session))))))
    = Some "/" /\
  cookie_after (SessionCookie sample_session) Returned
    (snd (serve LoginCallback sample_cfg world_ok None
            (callback_request "ApplicationState" (SessionCookie sample_session))))
    = SessionCookie authenticated_session /\
  authenticated_session !! "id_token" = Some "IDT1" /\
  authenticated_session !! "pkce_code_verifier" = Some (CodeVerifier zero_pkce) /\
  authenticated_session !! "pkce_code_challenge" = Some (CodeChallenge zero_pkce) /\
  authenticated_session !! "pkce_code_challenge_method" = Some "S256".
Proof. vm_compute. repeat split. Qed.

(** C3 (amended): after a callback whose exchange, verification and
    cookie encoding succeed, the session saved in the response holds the
    two tokens and, unchanged, the three PKCE entries the request's
    session held: the callback removes nothing. *)
Theorem callback_success_keeps_pkce
    (cfg : config) (world : World) (g : option PKCE) (r : Request)
    (status : nat) (exchange : Exchange) :
  reaches_exchange cfg world r ->
  token world (token_request cfg r (stored_verifier r))
    = Response status false (Unmarshalled exchange) ->
  verifyToken world (IdToken exchange) = true ->
  securecookie_Encode world (with_tokens exchange (request_session r)) = true ->
  fst (serve LoginCallback cfg world g r) = Returned /\
  sent_location (sent_header (resp_w (snd (serve LoginCallback cfg world g r)))) = Some "/" /\
  cookie_after (cookie r) (fst (serve LoginCallback cfg world g r))
    (snd (serve LoginCallback cfg world g r))
    = SessionCookie (with_tokens exchange (request_session r)) /\
  with_tokens exchange (request_session r) !! "pkce_code_verifier"
    = request_session r !! "pkce_code_verifier" /\
  with_tokens exchange (request_session r) !! "pkce_code_challenge"
    = request_session r !! "pkce_code_challenge" /\
  with_tokens exchange (request_session r) !! "pkce_code_challenge_method"
    = request_session r !! "pkce_code_challenge_method" /\
  pkce_stored (with_tokens exchange (request_session r)) = true.
Proof.
  intros Hreach Htok Hver Henc.
  rewrite (callback_exchange_succeeds cfg world g r status exchange Hreach Htok Hver Henc).
  assert (forall k, k <> "id_token" -> k <> "access_token" ->
                    with_tokens exchange (request_session r) !! k = request_session r !! k)
    as Hkeep.
  { intros k H1 H2. unfold with_tokens. now rewrite !lookup_insert_ne by congruence. }
  destruct Hreach as (_ & _ & Hp & _).
  cbn [fst snd resp_w].
  split; [reflexivity|]. split.
  { unfold redirected, sent_header. cbn [sent].
    destruct (bool_decide (Method r = "GET") || bool_decide (Method r = "HEAD"));
      reflexivity. }
  split.
  { unfold cookie_after, finish, redirected, sent_header. cbn [resp_w WriteHeader sent].
    destruct (bool_decide (Method r = "GET") || bool_decide (Method r = "HEAD"));
      reflexivity. }
  rewrite !Hkeep by discriminate. repeat split.
  unfold pkce_stored in *. rewrite !Hkeep by discriminate. exact Hp.
Qed.

Lemma callback_success_keeps_pkce_witness :
  cookie_after (SessionCookie sample_session)
    (fst (serve LoginCallback sample_cfg world_ok None
            (callback_request "ApplicationState" (SessionCookie sample_session))))
    (snd (serve LoginCallback sample_cfg world_ok None
            (callback_request "ApplicationState" (SessionCookie sample_session))))
    = SessionCookie (with_tokens token_ok sample_session) /\
  pkce_stored (with_tokens token_ok sample_session) = true.
Proof.
  pose proof (callback_success_keeps_pkce sample_cfg world_ok None
                (callback_request "ApplicationState" (SessionCookie sample_session))
                200 token_ok (sample_reaches_exchange _) eq_refl eq_refl eq_refl)
    as (_ & _ & Hcookie & _ & _ & _ & Hstored).
  split; [exact Hcookie | exact Hstored].
Defined.

(** ** C6: a failing exchange *)

(** C6 as stated fails: on a transport failure of the token request the
    process exits and no message has been written. *)
Lemma callback_transport_failure_exits_example :
  token world_down
    (token_request sample_cfg (callback_request "ApplicationState" (SessionCookie sample_session))
       (CodeVerifier zero_pkce)) = DoError /\
  fst (serve LoginCallback sample_cfg world_down None
         (callback_request "ApplicationState" (SessionCookie sample_session))) = Exited /\
  body (resp_w (snd (serve LoginCallback sample_cfg world_down None
                       (callback_request "ApplicationState" (SessionCookie sample_session)))))
    = [].
Proof. vm_compute. repeat split. Qed.

(** C6 (amended): when the callback has sent the token request and the
    exchange or the verification fails (transport failure, unreadable or
    malformed body, token not verified), the handler ends in [log.Fatalf]:
    the process exits.  Nothing has been written to the response, neither
    a message nor a redirect, no cookie is set and the session values are
    those of the request. *)
Theorem callback_failure_exits
    (cfg : config) (world : World) (g : option PKCE) (r : Request) :
  reaches_exchange cfg world r ->
  exchange_failure world (token world (token_request cfg r (stored_verifier r))) ->
  fst (serve LoginCallback cfg world g r) = Exited /\
  calls (snd (serve LoginCallback cfg world g r)) = [token_request cfg r (stored_verifier r)] /\
  body (resp_w (snd (serve LoginCallback cfg world g r))) = [] /\
  sent (resp_w (snd (serve LoginCallback cfg world g r))) = None /\
  cookie_after (cookie r) (fst (serve LoginCallback cfg world g r))
    (snd (serve LoginCallback cfg world g r)) = cookie r /\
  session (snd (serve LoginCallback cfg world g r)) = request_session r.
Proof.
  intros Hreach Hfail.
  rewrite (callback_exchange_fails cfg world g r Hreach Hfail).
  repeat split.
Qed.

Lemma callback_failure_exits_witness :
  fst (serve LoginCallback sample_cfg world_down None
         (callback_request "ApplicationState" (SessionCookie sample_session))) = Exited /\
  sent (resp_w (snd (serve LoginCallback sample_cfg world_down None
                       (callback_request "ApplicationState" (SessionCookie sample_session)))))
    = None.
Proof.
  assert (exchange_failure world_down
            (token world_down
               (token_request sample_cfg
                  (callback_request "ApplicationState" (SessionCookie sample_session))
                  (stored_verifier
                     (callback_request "ApplicationState" (SessionCookie sample_session))))))
    as Hfail by (vm_compute; constructor).
  pose proof (callback_failure_exits sample_cfg world_down None
                (callback_request "ApplicationState" (SessionCookie sample_session))
                (sample_reaches_exchange DoError) Hfail)
    as (Hexit & _ & _ & Hsent & _).
  split; [exact Hexit | exact Hsent].
Defined.

(** ** C7: the profile fetch *)

(** C7 as stated fails: a 401 response whose body is a JSON object gives
    that object's entries, not the empty mapping. *)
Lemma getProfileData_401_example :
  userinfo world_userinfo_401 (userinfo_request sample_cfg "AT1")
    = Response 401 false (Unmarshalled (<["error" := "invalid_token"]> ∅)) /\
  returned (getProfileData sample_cfg world_userinfo_401
              (mkRequest "GET" ∅ (SessionCookie authenticated_session))
              (enter None (mkRequest "GET" ∅ (SessionCookie authenticated_session))))
    = Some (<["error" := "invalid_token"]> ∅) /\
  (<["error" := "invalid_token"]> ∅ : gmap string string) !! "error" = Some "invalid_token".
Proof. vm_compute. repeat split. Qed.

(** C7 (amended): when the session does not decode, the access token is
    missing or empty, or the body of the response, whatever its status, is
    not JSON, the fetch returns the empty mapping.  (The status code is
    never read: [getProfileData_ignores_status].) *)
Theorem getProfileData_empty_on_failure
    (cfg : config) (world : World) (r : Request) (s : HState) :
  profile_failure cfg world r s ->
  returned (getProfileData cfg world r s) = Some ∅.
Proof.
  intros [e Hc | Hnil | access_token status readErr Hc Hat Hne Hnew Hresp].
  - rewrite getProfileData_no_token by eauto. reflexivity.
  - rewrite getProfileData_no_token by eauto. reflexivity.
  - rewrite (getProfileData_sends cfg world r s access_token Hc Hat Hne Hnew), Hresp.
    reflexivity.
Qed.

Lemma getProfileData_empty_on_failure_witness :
  returned (getProfileData sample_cfg world_ok (mkRequest "GET" ∅ (SessionCookie sample_session))
              (enter None (mkRequest "GET" ∅ (SessionCookie sample_session)))) = Some ∅.
Proof.
  apply getProfileData_empty_on_failure.
  apply access_token_missing. vm_compute. reflexivity.
Defined.

(** ** C8: PKCE material on a second [/login] *)

(** C8 (the code departs from the claim): the guard of [LoginHandler] looks
    up [pkceData], an entry nothing stores, so the branch that reuses the
    stored material is never taken.  A [/login] on the session a first
    [/login] stored draws new random bytes and overwrites the stored
    verifier and challenge; the page shows the new material. *)
Theorem login_overwrites_stored_pkce :
  after_login = SessionCookie sample_session /\
  sample_session !! "pkce_code_verifier" = Some (CodeVerifier zero_pkce) /\
  fst (serve Login sample_cfg world_ok (Some zero_pkce)
         (login_request (SessionCookie sample_session))) = Returned /\
  cookie_after (SessionCookie sample_session) Returned
    (snd (serve Login sample_cfg world_ok (Some zero_pkce)
            (login_request (SessionCookie sample_session))))
    = SessionCookie (with_pkce ones_pkce sample_session) /\
  with_pkce ones_pkce sample_session !! "pkce_code_verifier" = Some (CodeVerifier ones_pkce) /\
  pkce (snd (serve Login sample_cfg world_ok (Some zero_pkce)
               (login_request (SessionCookie sample_session)))) = Some ones_pkce /\
  String.eqb (CodeVerifier ones_pkce) (CodeVerifier zero_pkce) = false.
Proof. vm_compute. repeat split. Qed.

(** ** C9: the two tokens in reachable sessions *)

Lemma reachable_after_login :
  reachable sample_cfg (Some zero_pkce, SessionCookie sample_session).
Proof.
  unfold reachable. eapply rtc_l; [|apply rtc_refl].
  assert ((pkce_after
             (fst (serve Login sample_cfg
                     (sample_world (fun _ => x00) DoError DoError "") None
                     (login_request NoCookie)))
             (snd (serve Login sample_cfg
                     (sample_world (fun _ => x00) DoError DoError "") None
                     (login_request NoCookie))),
           cookie_after NoCookie
             (fst (serve Login sample_cfg
                     (sample_world (fun _ => x00) DoError DoError "") None
                     (login_request NoCookie)))
             (snd (serve Login sample_cfg
                     (sample_world (fun _ => x00) DoError DoError "") None
                     (login_request NoCookie))))
          = (Some zero_pkce, SessionCookie sample_session)) as <-
    by (vm_compute; reflexivity).
  exact (step_request sample_cfg Login
           (sample_world (fun _ => x00) DoError DoError "") (login_request NoCookie) None
           eq_refl).
Qed.

Lemma reachable_without_access_token :
  reachable sample_cfg
    (Some zero_pkce, SessionCookie (with_tokens token_without_access sample_session)).
Proof.
  unfold reachable. eapply rtc_r; [exact reachable_after_login|].
  assert ((pkce_after
             (fst (serve LoginCallback sample_cfg world_no_access_token (Some zero_pkce)
                     (callback_request "ApplicationState" (SessionCookie sample_session))))
             (snd (serve LoginCallback sample_cfg world_no_access_token (Some zero_pkce)
                     (callback_request "ApplicationState" (SessionCookie sample_session)))),
           cookie_after (SessionCookie sample_session)
             (fst (serve LoginCallback sample_cfg world_no_access_token (Some zero_pkce)
                     (callback_request "ApplicationState" (SessionCookie sample_session))))
             (snd (serve LoginCallback sample_cfg world_no_access_token (Some zero_pkce)
                     (callback_request "ApplicationState" (SessionCookie sample_session)))))
          = (Some zero_pkce,
             SessionCookie (with_tokens token_without_access sample_session))) as <-
    by (vm_compute; reflexivity).
  exact (step_request sample_cfg LoginCallback world_no_access_token
           (callback_request "ApplicationState" (SessionCookie sample_session))
           (Some zero_pkce) eq_refl).
Qed.

(** C9 as stated fails: a login followed by a callback whose token
    response has no [access_token] leaves a session with a non-empty
    [id_token] and an empty [access_token]. *)
Lemma partial_session_reachable_example :
  reachable sample_cfg
    (Some zero_pkce, SessionCookie (with_tokens token_without_access sample_session)) /\
  with_tokens token_without_access sample_session !! "id_token" = Some "IDT1" /\
  with_tokens token_without_access sample_session !! "access_token" = Some "".
Proof.
  split; [exact reachable_without_access_token|]. vm_compute. split; reflexivity.
Qed.

(** C9 (amended): in every session a browser can reach from no cookie
    through the handlers, the [id_token] and [access_token] entries are
    both stored or both absent: the callback stores the two together and
    logout deletes the two together.  (Stored does not mean non-empty: the
    values are those of the token response.) *)
Theorem reachable_tokens_paired (cfg : config) (s : option PKCE * Cookie) :
  reachable cfg s -> tokens_paired (snd s).
Proof.
  apply reachable_invariant; [exact I|].
  intros rt world g r. apply serve_keeps_tokens_paired.
Qed.

Lemma reachable_tokens_paired_witness :
  tokens_paired (SessionCookie (with_tokens token_without_access sample_session)).
Proof.
  exact (reachable_tokens_paired sample_cfg _ reachable_without_access_token).
Defined.

(** ** C10: the state value *)

(** C10: the state is the one constant ["ApplicationState"]: every login
    page rendered, for any configuration, provider, process state and
    request, carries it, every interaction request sent carries it, and the
    callback answers with the state rejection exactly when the [state]
    parameter differs from it, whatever the session. *)
Theorem state_is_process_wide_constant
    (cfg : config) (world : World) (g : option PKCE) (r : Request) :
  state = "ApplicationState" /\
  Forall (fun s => s = "ApplicationState")
    (rendered_states (body (resp_w (snd (serve Login cfg world g r))))) /\
  Forall (fun s => s = "ApplicationState")
    (sent_states (calls (snd (serve Login cfg world g r)))) /\
  (url_Get (Query r) "state" <> "ApplicationState" <->
   serve LoginCallback cfg world g r
     = (Returned, set_w (Write state_rejection new_writer) (enter g r))).
Proof.
  split; [reflexivity|].
  destruct (serve Login cfg world g r) as [why st] eqn:E.
  destruct (login_state cfg world g r why st E) as [Hr Hs].
  split; [exact Hr|]. split; [exact Hs|]. split.
  - apply callback_state_mismatch.
  - intros Hrej Heq. exact (callback_state_accepted cfg world g r Heq Hrej).
Qed.

(** A login page is rendered and an interaction request is sent. *)
Lemma login_renders_state_example :
  rendered_states (body (resp_w (snd (serve Login sample_cfg world_ok None
                                        (login_request NoCookie)))))
    = ["ApplicationState"] /\
  sent_states (calls (snd (serve Login sample_cfg world_ok None (login_request NoCookie))))
    = ["ApplicationState"].
Proof. vm_compute. split; reflexivity. Qed.

(** * Further properties *)

(** ** The generators *)

Lemma sextet_url_safe v k : In (Base64.sextet v k) Base64.encodeURL.
Proof.
  unfold Base64.sextet. apply nth_In.
  assert (N.land (N.shiftr v k) 63 < 64)%N as H.
  { change 63%N with (N.ones 6). rewrite N.land_ones. now apply N.mod_lt. }
  change (length Base64.encodeURL) with 64. lia.
Qed.

Lemma encode_raw_url_safe (src : list byte) :
  Forall url_safe (Base64.encode None src).
Proof.
  induction src as [| a | a b | a b c l IH] using list_ind3;
    cbn [Base64.encode];
    repeat (apply List.Forall_cons; [apply sextet_url_safe|]);
    first [apply List.Forall_nil | exact IH].
Qed.

Lemma encode_padded_url_safe (src : list byte) :
  Forall url_safe_or_pad (Base64.encode (Some "="%char) src).
Proof.
  induction src as [| a | a b | a b c l IH] using list_ind3;
    cbn [Base64.encode];
    repeat (apply List.Forall_cons;
            [first [left; apply sextet_url_safe | right; reflexivity]|]);
    first [apply List.Forall_nil | exact IH].
Qed.

Lemma encode_padded_length (p : ascii) (src : list byte) :
  length (Base64.encode (Some p) src) = 4 * ((length src + 2) / 3).
Proof.
  induction src as [| a | a b | a b c l IH] using list_ind3; try reflexivity.
  cbn [Base64.encode length]. rewrite IH.
  replace (S (S (S (length l))) + 2) with ((length l + 2) + 1 * 3) by lia.
  rewrite Nat.div_add by lia. lia.
Qed.

Lemma list_ascii_of_string_of_list_ascii l :
  list_ascii_of_string (string_of_list_ascii l) = l.
Proof. induction l as [|a l IH]; simpl; [reflexivity | now rewrite IH]. Qed.

Lemma be_bytes_length k x : length (SHA256.be_bytes k x) = k.
Proof. unfold SHA256.be_bytes. now rewrite length_map, length_rev, length_seq. Qed.

Lemma Sum256_length (msg : list byte) : length (SHA256.Sum256 msg) = 32.
Proof.
  unfold SHA256.Sum256.
  destruct (SHA256.blocks _ _ _) as [a b c d e f g h].
  cbn [flat_map]. rewrite !length_app, !be_bytes_length. reflexivity.
Qed.

(** X1: the code verifier consists of URL-safe base64 characters only
    (letters, digits, [-] and [_]): no padding and nothing to escape. *)
Theorem createCodeVerifier_url_safe (r : Rand) (pos : nat) (s : string) :
  createCodeVerifier r pos = Some s ->
  Forall url_safe (list_ascii_of_string s).
Proof.
  unfold createCodeVerifier. destruct (rand_Read r pos 86) as [bs|]; [|discriminate].
  intros [= <-]. unfold Base64.RawURLEncoding_EncodeToString.
  rewrite list_ascii_of_string_of_list_ascii. apply encode_raw_url_safe.
Qed.

Lemma createCodeVerifier_url_safe_witness :
  Forall url_safe (list_ascii_of_string (CodeVerifier zero_pkce)).
Proof.
  apply (createCodeVerifier_url_safe (RandSupply (fun _ => x00)) 0).
  vm_compute. reflexivity.
Defined.

(** X2: the code challenge always has 43 characters, all URL-safe: the
    unpadded encoding of the 32 bytes of a SHA-256 digest. *)
Theorem createPKCEData_challenge_shape (r : Rand) (pos : nat) (p : PKCE) :
  createPKCEData r pos = Some p ->
  String.length (CodeChallenge p) = 43 /\
  Forall url_safe (list_ascii_of_string (CodeChallenge p)).
Proof.
  unfold createPKCEData. destruct (createCodeVerifier r pos) as [s|]; [|discriminate].
  intros [= <-]. cbn [CodeChallenge]. split.
  - rewrite RawURLEncoding_length, Sum256_length. reflexivity.
  - unfold Base64.RawURLEncoding_EncodeToString.
    rewrite list_ascii_of_string_of_list_ascii. apply encode_raw_url_safe.
Qed.

Lemma createPKCEData_challenge_shape_witness :
  String.length (CodeChallenge zero_pkce) = 43 /\
  Forall url_safe (list_ascii_of_string (CodeChallenge zero_pkce)).
Proof.
  apply (createPKCEData_challenge_shape (RandSupply (fun _ => x00)) 0).
  vm_compute. reflexivity.
Defined.

(** X3: a nonce has 44 characters, URL-safe base64 or the padding
    character: the padded encoding of 32 random bytes; the generator fails
    only when the random source does. *)
Theorem generateNonce_shape (r : Rand) (pos : nat) :
  match generateNonce r pos with
  | Some nonce =>
      String.length nonce = 44 /\ Forall url_safe_or_pad (list_ascii_of_string nonce)
  | None => r = RandUnavailable
  end.
Proof.
  unfold generateNonce. destruct (rand_Read r pos 32) as [bs|] eqn:E.
  - unfold Base64.URLEncoding_EncodeToString. split.
    + rewrite string_of_list_ascii_length, encode_padded_length,
        (rand_Read_length _ _ _ _ E). reflexivity.
    + rewrite list_ascii_of_string_of_list_ascii. apply encode_padded_url_safe.
  - destruct r; [reflexivity | discriminate E].
Qed.

(** ** Configuration loading *)

Lemma strings_Split_cons s sep :
  exists piece pieces, strings_Split s sep = piece :: pieces.
Proof.
  induction s as [|c s (piece & pieces & IH)]; cbn [strings_Split]; [eauto|].
  case_bool_decide; [eauto|]. rewrite IH. eauto.
Qed.

Lemma strings_Join_cons_char c piece pieces sep :
  strings_Join (String c piece :: pieces) sep = String c (strings_Join (piece :: pieces) sep).
Proof. destruct pieces; reflexivity. Qed.

Lemma strings_Join_Split s old new :
  strings_Join (strings_Split s old) new = replace_char s old new.
Proof.
  induction s as [|c s IH]; [reflexivity|].
  cbn [strings_Split replace_char]. destruct (strings_Split_cons s old) as (piece & pieces & E).
  rewrite E in *. case_bool_decide.
  - cbn [strings_Join]. rewrite <- IH. reflexivity.
  - rewrite strings_Join_cons_char, IH. reflexivity.
Qed.

Lemma Required_string_true s : s <> "" -> Required_string s = true.
Proof.
  intros H. unfold Required_string. apply negb_true_iff, bool_decide_eq_false.
  destruct s; [congruence | discriminate].
Qed.

Lemma Sprintf_v_nonempty (x : option string) :
  (forall s, x = Some s -> s <> "") -> Sprintf_v x <> "".
Proof. destruct x as [s|]; simpl; [auto | discriminate]. Qed.

(** X4: whatever [ReadConfig] returns passes [Validate], as long as the
    values viper finds are not empty: a setting found nowhere is filled
    with the text of nil, and the scopes with the one-element split of it,
    so a missing setting is not reported. *)
Theorem ReadConfig_result_validates (v : Viper) (c : config) :
  ReadConfig v = Some c ->
  (forall key s, v_Get v key = Some s -> s <> "") ->
  Validate c = true.
Proof.
  unfold ReadConfig. intros E Hget.
  destruct (v_ReadInConfig v); try discriminate E;
    (destruct (v_Unmarshal v) as [c0|]; [|discriminate E]);
    injection E as <-; unfold Validate; cbn [ClientID ClientSecret Issuer Scopes RedirectURI];
    repeat (apply andb_true_iff; split);
    try (case_bool_decide;
         [ apply Required_string_true, Sprintf_v_nonempty; intros s; apply Hget
         | now apply Required_string_true ]);
    (unfold Required_slice; apply negb_true_iff, bool_decide_eq_false;
     case_bool_decide as Hl; [|exact Hl];
     destruct (strings_Split_cons (Sprintf_v (v_Get v "SCOPES")) ","%char)
       as (piece & pieces & ->); discriminate).
Qed.

Lemma ReadConfig_result_validates_witness :
  ReadConfig (mkViper ConfigFileNotFound (Some (mkConfig "" "" "" [] "")) (fun _ => None))
    = Some (mkConfig "<nil>" "<nil>" "<nil>" ["<nil>"] "<nil>") /\
  Validate (mkConfig "<nil>" "<nil>" "<nil>" ["<nil>"] "<nil>") = true.
Proof.
  split; [reflexivity|].
  apply (ReadConfig_result_validates
           (mkViper ConfigFileNotFound (Some (mkConfig "" "" "" [] "")) (fun _ => None)));
    [reflexivity | discriminate].
Defined.

(** X5: scopes taken from the environment are split at the commas, and
    the interaction request joins them with spaces: the [scope] parameter
    is the environment value with every comma replaced by a space. *)
Theorem ReadConfig_env_scopes_joined (v : Viper) (c0 c : config) :
  v_Unmarshal v = Some c0 ->
  Scopes c0 = [] ->
  ReadConfig v = Some c ->
  strings_Join (Scopes c) " " = replace_char (Sprintf_v (v_Get v "SCOPES")) ","%char " ".
Proof.
  unfold ReadConfig. intros -> Hs E.
  destruct (v_ReadInConfig v); try discriminate E; injection E as <-;
    cbn [Scopes]; rewrite Hs; cbn [length]; rewrite bool_decide_true by reflexivity;
    apply strings_Join_Split.
Qed.

Lemma ReadConfig_env_scopes_joined_witness :
  ReadConfig (mkViper ConfigRead (Some (mkConfig "id" "secret" "https://x" [] "uri"))
                (fun _ => Some "openid,profile,email"))
    = Some (mkConfig "id" "secret" "https://x" ["openid"; "profile"; "email"] "uri") /\
  strings_Join ["openid"; "profile"; "email"] " " = "openid profile email".
Proof.
  split; [reflexivity|].
  exact (ReadConfig_env_scopes_joined
           (mkViper ConfigRead (Some (mkConfig "id" "secret" "https://x" [] "uri"))
              (fun _ => Some "openid,profile,email"))
           (mkConfig "id" "secret" "https://x" [] "uri")
           (mkConfig "id" "secret" "https://x" ["openid"; "profile"; "email"] "uri")
           eq_refl eq_refl eq_refl).
Defined.

(** ** What the callback checks before it changes the session *)

Lemma callback_save_fails_state cfg world g r status exchange :
  reaches_exchange cfg world r ->
  token world (token_request cfg r (stored_verifier r))
    = Response status false (Unmarshalled exchange) ->
  verifyToken world (IdToken exchange) = true ->
  securecookie_Encode world (with_tokens exchange (request_session r)) = false ->
  serve LoginCallback cfg world g r =
    (Exited, mkH g (with_tokens exchange (request_session r)) new_writer 0
               [token_request cfg r (stored_verifier r)]).
Proof.
  intros Hreach Htok Hver Henc. callback_prefix Hreach.
  rewrite Htok, Hver. cbn [negb]. fold (with_tokens exchange (request_session r)).
  rewrite Henc. reflexivity.
Qed.

Lemma redirected_cookie r g v pos sent_calls :
  cookie_after (cookie r) Returned (mkH g v (redirected r v) pos sent_calls) = SessionCookie v.
Proof.
  unfold cookie_after, finish, redirected, sent_header. cbn [resp_w WriteHeader sent].
  destruct (bool_decide (Method r = "GET") || bool_decide (Method r = "HEAD")); reflexivity.
Qed.

(** X6: the callback changes the session only after all its checks: either the
    session values and the browser's cookie are those of the request, or
    the state matched, an interaction code was given, the PKCE entries were
    stored, the token response decoded and the verifier accepted its
    [id_token]; then the session is the request's with the two tokens of
    the response, and the cookie is the old one or that session. *)
Theorem callback_changes_session_only_after_verification
    (cfg : config) (world : World) (g : option PKCE) (r : Request) :
  (session (snd (serve LoginCallback cfg world g r)) = request_session r /\
   cookie_after (cookie r) (fst (serve LoginCallback cfg world g r))
     (snd (serve LoginCallback cfg world g r)) = cookie r) \/
  (reaches_exchange cfg world r /\
   exists status exchange,
     token world (token_request cfg r (stored_verifier r))
       = Response status false (Unmarshalled exchange) /\
     VerifyIdToken world (IdToken exchange) = VerifyJwt /\
     session (snd (serve LoginCallback cfg world g r))
       = with_tokens exchange (request_session r) /\
     (cookie_after (cookie r) (fst (serve LoginCallback cfg world g r))
        (snd (serve LoginCallback cfg world g r)) = cookie r \/
      cookie_after (cookie r) (fst (serve LoginCallback cfg world g r))
        (snd (serve LoginCallback cfg world g r))
        = SessionCookie (with_tokens exchange (request_session r)))).
Proof.
  destruct (decide (url_Get (Query r) "state" = state)) as [Hst|Hst].
  2:{ left. rewrite (callback_state_mismatch cfg world g r Hst). split; reflexivity. }
  destruct (decide (url_Get (Query r) "interaction_code" = "")) as [Hcode|Hcode].
  { left. rewrite (callback_code_missing cfg world g r Hst Hcode). split; reflexivity. }
  destruct (pkce_stored (request_session r)) eqn:Hp.
  2:{ left. rewrite (callback_pkce_missing cfg world g r Hst Hcode Hp).
      split; [reflexivity|]. unfold cookie_error_writer.
      destruct (cookie r); reflexivity. }
  destruct (http_NewRequest world "POST" (Issuer cfg +:+ "/oauth2/v1/token")) eqn:Hnew.
  2:{ left. rewrite (callback_request_fails cfg world g r Hst Hcode Hp Hnew).
      split; reflexivity. }
  assert (reaches_exchange cfg world r) as Hreach by (repeat split; assumption).
  destruct (token world (token_request cfg r (stored_verifier r)))
    as [|status [|] [|stored|exchange]] eqn:Htok;
    try (left; rewrite (callback_exchange_fails cfg world g r Hreach)
           by (rewrite Htok; constructor); split; reflexivity).
  destruct (verifyToken world (IdToken exchange)) eqn:Hver.
  2:{ left. rewrite (callback_exchange_fails cfg world g r Hreach)
        by (rewrite Htok; apply invalid_token; exact Hver). split; reflexivity. }
  right. split; [exact Hreach|]. exists status, exchange. split; [reflexivity|].
  split.
  { unfold verifyToken in Hver. destruct (VerifyIdToken world (IdToken exchange));
      [discriminate | discriminate | reflexivity]. }
  destruct (securecookie_Encode world (with_tokens exchange (request_session r))) eqn:Henc.
  - rewrite (callback_exchange_succeeds cfg world g r status exchange Hreach Htok Hver Henc).
    split; [reflexivity|]. right. cbn [fst snd]. apply redirected_cookie.
  - rewrite (callback_save_fails_state cfg world g r status exchange Hreach Htok Hver Henc).
    split; [reflexivity|]. left. reflexivity.
Qed.

(** ** The token request *)

(** X7: the token request never carries [state], carries the interaction
    code of the callback as the only value of [interaction_code], and for
    [grant_type], [client_id], [client_secret] and [code_verifier] puts the
    program's value after whatever values the callback's own query had
    under that key. *)
Theorem token_request_parameters (cfg : config) (r : Request) (code_verifier : string) :
  req_method (token_request cfg r code_verifier) = "POST" /\
  req_endpoint (token_request cfg r code_verifier) = Issuer cfg +:+ "/oauth2/v1/token" /\
  req_query (token_request cfg r code_verifier) !! "state" = None /\
  req_query (token_request cfg r code_verifier) !! "interaction_code"
    = Some [url_Get (Query r) "interaction_code"] /\
  req_query (token_request cfg r code_verifier) !! "grant_type"
    = Some (default [] (Query r !! "grant_type") ++ ["interaction_code"]) /\
  req_query (token_request cfg r code_verifier) !! "client_id"
    = Some (default [] (Query r !! "client_id") ++ [ClientID cfg]) /\
  req_query (token_request cfg r code_verifier) !! "client_secret"
    = Some (default [] (Query r !! "client_secret") ++ [ClientSecret cfg]) /\
  req_query (token_request cfg r code_verifier) !! "code_verifier"
    = Some (default [] (Query r !! "code_verifier") ++ [code_verifier]).
Proof.
  unfold token_request, url_Add, url_Set, url_Del. cbn [req_method req_endpoint req_query].
  repeat split;
    repeat first [ rewrite lookup_insert_eq
                 | rewrite lookup_insert_ne by discriminate
                 | rewrite lookup_delete_eq
                 | rewrite lookup_delete_ne by discriminate ];
    reflexivity.
Qed.

(** X8: every other parameter of the callback's query is forwarded to the
    token endpoint as it came. *)
Theorem token_request_forwards_other_parameters
    (cfg : config) (r : Request) (code_verifier key : string) :
  key ∉ token_keys ->
  req_query (token_request cfg r code_verifier) !! key = Query r !! key.
Proof.
  unfold token_keys. intros Hk.
  repeat (apply not_elem_of_cons in Hk; destruct Hk as [? Hk]).
  unfold token_request, url_Add, url_Set, url_Del. cbn [req_query].
  rewrite !lookup_insert_ne by congruence. now rewrite lookup_delete_ne by congruence.
Qed.

Lemma token_request_forwards_other_parameters_witness :
  req_query (token_request sample_cfg
               (mkRequest "GET" (<["redirect_uri" := ["https://elsewhere"]]>
                                   (callback_query "ApplicationState" "abc123")) NoCookie)
               "v") !! "redirect_uri"
  = Some ["https://elsewhere"].
Proof.
  rewrite token_request_forwards_other_parameters; [reflexivity|].
  unfold token_keys.
  repeat (apply not_elem_of_cons; split; [discriminate|]). apply not_elem_of_nil.
Defined.

(** ** Logout and the views *)

Lemma logout_run cfg world g r :
  (forall e, cookie r <> BadCookie e) ->
  securecookie_Encode world (delete "access_token" (delete "id_token" (request_session r)))
    = true ->
  exists rw,
    serve Logout cfg world g r =
      (Returned, mkH g (delete "access_token" (delete "id_token" (request_session r)))
                   rw 0 []) /\
    sent_cookie (sent_header rw)
      = Some (delete "access_token" (delete "id_token" (request_session r))) /\
    sent_status rw = Some 302 /\
    sent_location (sent_header rw) = Some "/".
Proof.
  intros Hc Henc. unfold serve, run, handler, LogoutHandler, enter. unfold_ops.
  assert (match cookie r with BadCookie err => Some err | _ => None end = None) as ->.
  { destruct (cookie r) as [|e|v]; [reflexivity | now destruct (Hc e) | reflexivity]. }
  rewrite Henc. cbn [resp_w header new_writer with_header app Header_has].
  destruct (bool_decide (Method r = "GET")); destruct (bool_decide (Method r = "HEAD"));
    eexists; (split; [reflexivity|]); repeat split.
Qed.

(** X9: logout on a decodable (or absent) cookie whose values encode
    answers 302 to [/] and sets a cookie without [id_token] and
    [access_token]; every other entry of the session, the PKCE material
    included, stays; no request goes to the provider. *)
Theorem logout_clears_only_tokens
    (cfg : config) (world : World) (g : option PKCE) (r : Request) :
  (forall e, cookie r <> BadCookie e) ->
  securecookie_Encode world (delete "access_token" (delete "id_token" (request_session r)))
    = true ->
  fst (serve Logout cfg world g r) = Returned /\
  sent_status (resp_w (snd (serve Logout cfg world g r))) = Some 302 /\
  sent_location (sent_header (resp_w (snd (serve Logout cfg world g r)))) = Some "/" /\
  calls (snd (serve Logout cfg world g r)) = [] /\
  exists v,
    cookie_after (cookie r) (fst (serve Logout cfg world g r))
      (snd (serve Logout cfg world g r)) = SessionCookie v /\
    v !! "id_token" = None /\
    v !! "access_token" = None /\
    forall key, key <> "id_token" -> key <> "access_token" ->
                v !! key = request_session r !! key.
Proof.
  intros Hc Henc. destruct (logout_run cfg world g r Hc Henc) as (rw & -> & Hck & Hs & Hl).
  cbn [fst snd resp_w calls]. repeat (split; [assumption || reflexivity|]).
  exists (delete "access_token" (delete "id_token" (request_session r))).
  split.
  { unfold cookie_after, finish. cbn [resp_w].
    assert (WriteHeader 200 rw = rw) as ->.
    { unfold WriteHeader. unfold sent_status in Hs. destruct (sent rw); [reflexivity|discriminate]. }
    now rewrite Hck. }
  split; [now rewrite lookup_delete_ne, lookup_delete_eq by discriminate|].
  split; [now rewrite lookup_delete_eq|].
  intros key H1 H2. now rewrite !lookup_delete_ne by congruence.
Qed.

Lemma logout_clears_only_tokens_witness :
  fst (serve Logout sample_cfg world_ok None
         (mkRequest "POST" ∅ (SessionCookie authenticated_session))) = Returned /\
  sent_status (resp_w (snd (serve Logout sample_cfg world_ok None
                              (mkRequest "POST" ∅ (SessionCookie authenticated_session)))))
    = Some 302.
Proof.
  pose proof (logout_clears_only_tokens sample_cfg world_ok None
                (mkRequest "POST" ∅ (SessionCookie authenticated_session))
                (fun e H => eq_ind (SessionCookie authenticated_session)
                              (fun c => match c with BadCookie _ => False | _ => True end)
                              I _ H)
                eq_refl) as (H1 & H2 & _).
  split; [exact H1 | exact H2].
Defined.

Lemma view_run (name : string) cfg world g r :
  nil_or_empty (request_session r !! "access_token") = true ->
  (forall e, cookie r <> BadCookie e) ->
  run (profile <- getProfileData cfg world r ;;
       auth <- isAuthenticated r ;;
       on_w (Write (ProfileTemplate name (mkProfileData profile auth))))%H (enter g r)
  = (Returned,
     set_w (Write (ProfileTemplate name
                     (mkProfileData ∅ (negb (nil_or_empty (request_session r !! "id_token")))))
              new_writer) (enter g r)).
Proof.
  intros Hat Hc. unfold run, getProfileData, isAuthenticated, enter. unfold_ops.
  assert (match cookie r with BadCookie err => Some err | _ => None end = None) as ->.
  { destruct (cookie r) as [|e|v]; [reflexivity | now destruct (Hc e) | reflexivity]. }
  rewrite Hat. cbn [orb]. rewrite orb_true_r.
  rewrite (bool_decide_false (None <> None)) by (intros H; now apply H).
  cbn [orb]. destruct (nil_or_empty (request_session r !! "id_token")); reflexivity.
Qed.

(** X10: a session with a non-empty [id_token] and no (or an empty)
    [access_token] is shown as authenticated with an empty profile, on the
    home and on the profile page, and no request goes to the provider:
    authentication is read off [id_token] alone. *)
Theorem views_authenticated_without_access_token
    (cfg : config) (world : World) (g : option PKCE) (r : Request) :
  (forall e, cookie r <> BadCookie e) ->
  nil_or_empty (request_session r !! "id_token") = false ->
  nil_or_empty (request_session r !! "access_token") = true ->
  fst (serve Home cfg world g r) = Returned /\
  rendered_profiles (body (resp_w (snd (serve Home cfg world g r))))
    = [("home.gohtml", mkProfileData ∅ true)] /\
  calls (snd (serve Home cfg world g r)) = [] /\
  fst (serve Profile cfg world g r) = Returned /\
  rendered_profiles (body (resp_w (snd (serve Profile cfg world g r))))
    = [("profile.gohtml", mkProfileData ∅ true)] /\
  calls (snd (serve Profile cfg world g r)) = [].
Proof.
  intros Hc Hid Hat.
  unfold serve, handler, HomeHandler, ProfileHandler.
  rewrite !view_run by assumption. rewrite Hid. repeat split.
Qed.

Lemma views_authenticated_without_access_token_witness :
  rendered_profiles
    (body (resp_w (snd (serve Home sample_cfg world_ok None
                          (mkRequest "GET" ∅
                             (SessionCookie (with_tokens token_without_access sample_session)))))))
  = [("home.gohtml", mkProfileData ∅ true)].
Proof.
  refine (proj1 (proj2 (views_authenticated_without_access_token sample_cfg world_ok None
            (mkRequest "GET" ∅
               (SessionCookie (with_tokens token_without_access sample_session)))
            (fun e H => eq_ind (SessionCookie (with_tokens token_without_access sample_session))
                          (fun c => match c with BadCookie _ => False | _ => True end)
                          I _ H)
            _ _))); vm_compute; reflexivity.
Defined.

(** X11: after a logout the browser is unauthenticated: with the cookie
    the logout set, the profile page shows an empty profile, not
    authenticated, and sends nothing to the provider. *)
Theorem logout_then_profile_is_empty
    (cfg : config) (world world' : World) (g g' : option PKCE) (r r' : Request) :
  (forall e, cookie r <> BadCookie e) ->
  securecookie_Encode world (delete "access_token" (delete "id_token" (request_session r)))
    = true ->
  cookie r' = cookie_after (cookie r) (fst (serve Logout cfg world g r))
                (snd (serve Logout cfg world g r)) ->
  fst (serve Profile cfg world' g' r') = Returned /\
  rendered_profiles (body (resp_w (snd (serve Profile cfg world' g' r'))))
    = [("profile.gohtml", mkProfileData ∅ false)] /\
  calls (snd (serve Profile cfg world' g' r')) = [].
Proof.
  intros Hc Henc Hnext.
  destruct (logout_run cfg world g r Hc Henc) as (rw & E & Hck & Hs & _).
  rewrite E in Hnext. cbn [fst snd] in Hnext.
  assert (cookie r' = SessionCookie (delete "access_token" (delete "id_token" (request_session r))))
    as Hr'.
  { rewrite Hnext. unfold cookie_after, finish. cbn [resp_w].
    assert (WriteHeader 200 rw = rw) as ->.
    { unfold WriteHeader. unfold sent_status in Hs. destruct (sent rw); [reflexivity|discriminate]. }
    now rewrite Hck. }
  assert (request_session r' = delete "access_token" (delete "id_token" (request_session r)))
    as Hs' by (unfold request_session at 1; now rewrite Hr').
  unfold serve, handler, ProfileHandler.
  rewrite view_run.
  - rewrite Hs', lookup_delete_ne, lookup_delete_eq by discriminate. repeat split.
  - now rewrite Hs', lookup_delete_eq.
  - intros e. rewrite Hr'. discriminate.
Qed.

Lemma logout_then_profile_is_empty_witness :
  rendered_profiles
    (body (resp_w (snd (serve Profile sample_cfg world_ok None
                          (mkRequest "GET" ∅ (SessionCookie sample_session))))))
  = [("profile.gohtml", mkProfileData ∅ false)].
Proof.
  refine (proj1 (proj2 (logout_then_profile_is_empty sample_cfg world_ok world_ok None None
            (mkRequest "POST" ∅ (SessionCookie authenticated_session))
            (mkRequest "GET" ∅ (SessionCookie sample_session))
            (fun e H => eq_ind (SessionCookie authenticated_session)
                          (fun c => match c with BadCookie _ => False | _ => True end)
                          I _ H)
            _ _))); vm_compute; reflexivity.
Defined.

(** ** The views change nothing *)

Lemma view_paths (name : string) cfg world g r why st :
  run (profile <- getProfileData cfg world r ;;
       auth <- isAuthenticated r ;;
       on_w (Write (ProfileTemplate name (mkProfileData profile auth))))%H (enter g r)
    = (why, st) ->
  why <> Exited /\
  session st = request_session r /\
  pkce st = g /\
  cookie_after (cookie r) why st = cookie r /\
  sent_location (sent_header (resp_w st)) = None /\
  (calls st = [] \/
   exists access_token,
     request_session r !! "access_token" = Some access_token /\
     calls st = [userinfo_request cfg access_token]).
Proof.
  intros E.
  match type of E with
  | _ = (?why, ?st) =>
      pattern why, st;
      match goal with |- ?P _ _ => set (Q := P) end
  end.
  revert E. unfold run, getProfileData, isAuthenticated, enter. unfold_ops.
  split_cases; intros [= <- <-]; subst Q; cbv beta;
    (split; [discriminate|]); repeat (split; [reflexivity|]);
    first [left; reflexivity
          | right; eexists; split; [first [eassumption | reflexivity] | reflexivity]].
Qed.

(** X12: the home and the profile page never end the process, never
    change the session values, the process-wide [pkce] or the browser's
    cookie, never redirect, and send at most one request to the provider:
    the userinfo request with the stored access token. *)
Theorem views_are_read_only
    (cfg : config) (world : World) (g : option PKCE) (r : Request) (rt : Route) :
  rt = Home \/ rt = Profile ->
  fst (serve rt cfg world g r) <> Exited /\
  session (snd (serve rt cfg world g r)) = request_session r /\
  pkce (snd (serve rt cfg world g r)) = g /\
  cookie_after (cookie r) (fst (serve rt cfg world g r)) (snd (serve rt cfg world g r))
    = cookie r /\
  sent_location (sent_header (resp_w (snd (serve rt cfg world g r)))) = None /\
  (calls (snd (serve rt cfg world g r)) = [] \/
   exists access_token,
     request_session r !! "access_token" = Some access_token /\
     calls (snd (serve rt cfg world g r)) = [userinfo_request cfg access_token]).
Proof.
  intros [-> | ->]; unfold serve, handler, HomeHandler, ProfileHandler.
  - destruct (run _ _) as [why st] eqn:E. exact (view_paths "home.gohtml" _ _ _ _ _ _ E).
  - destruct (run _ _) as [why st] eqn:E. exact (view_paths "profile.gohtml" _ _ _ _ _ _ E).
Qed.

Lemma views_are_read_only_witness :
  session (snd (serve Profile sample_cfg world_userinfo_401 None
                  (mkRequest "GET" ∅ (SessionCookie authenticated_session))))
    = authenticated_session /\
  fst (serve Profile sample_cfg world_userinfo_401 None
         (mkRequest "GET" ∅ (SessionCookie authenticated_session))) <> Exited.
Proof.
  pose proof (views_are_read_only sample_cfg world_userinfo_401 None
                (mkRequest "GET" ∅ (SessionCookie authenticated_session)) Profile
                (or_intror eq_refl)) as (H1 & H2 & _).
  split; [exact H2 | exact H1].
Defined.

(** ** From the callback to the profile page *)

Lemma view_run_fetch (name : string) cfg world g r access_token status readErr m :
  (forall e, cookie r <> BadCookie e) ->
  request_session r !! "access_token" = Some access_token ->
  access_token <> "" ->
  http_NewRequest world "GET" (Issuer cfg +:+ "/oauth2/v1/userinfo") = true ->
  userinfo world (userinfo_request cfg access_token)
    = Response status readErr (Unmarshalled m) ->
  run (profile <- getProfileData cfg world r ;;
       auth <- isAuthenticated r ;;
       on_w (Write (ProfileTemplate name (mkProfileData profile auth))))%H (enter g r)
  = (Returned,
     set_w (Write (ProfileTemplate name
                     (mkProfileData m (negb (nil_or_empty (request_session r !! "id_token")))))
              new_writer)
       (add_call (userinfo_request cfg access_token) (enter g r))).
Proof.
  intros Hc Hat Hne Hnew Hresp. unfold run, bind at 1.
  rewrite (getProfileData_ignores_status cfg world r (enter g r) access_token status readErr m
             Hc Hat Hne Hnew Hresp).
  unfold isAuthenticated, enter. unfold_ops.
  assert (match cookie r with BadCookie err => Some err | _ => None end = None) as ->.
  { destruct (cookie r) as [|e|v]; [reflexivity | now destruct (Hc e) | reflexivity]. }
  rewrite (bool_decide_false (None <> None)) by (intros H; now apply H).
  cbn [orb]. destruct (nil_or_empty (request_session r !! "id_token")); reflexivity.
Qed.

(** X13: after a callback that succeeds with non-empty tokens, a request
    for the profile page with the cookie it set sends the userinfo request
    with the access token of the token response as bearer, and shows the
    decoded answer as the profile of an authenticated user, whatever the
    status of that answer. *)
Theorem callback_then_profile
    (cfg : config) (world world' : World) (g g' : option PKCE) (r r' : Request)
    (status status' : nat) (readErr : bool) (exchange : Exchange)
    (m : gmap string string) :
  reaches_exchange cfg world r ->
  token world (token_request cfg r (stored_verifier r))
    = Response status false (Unmarshalled exchange) ->
  verifyToken world (IdToken exchange) = true ->
  securecookie_Encode world (with_tokens exchange (request_session r)) = true ->
  IdToken exchange <> "" ->
  AccessToken exchange <> "" ->
  cookie r' = cookie_after (cookie r) (fst (serve LoginCallback cfg world g r))
                (snd (serve LoginCallback cfg world g r)) ->
  http_NewRequest world' "GET" (Issuer cfg +:+ "/oauth2/v1/userinfo") = true ->
  userinfo world' (userinfo_request cfg (AccessToken exchange))
    = Response status' readErr (Unmarshalled m) ->
  fst (serve Profile cfg world' g' r') = Returned /\
  calls (snd (serve Profile cfg world' g' r')) = [userinfo_request cfg (AccessToken exchange)] /\
  rendered_profiles (body (resp_w (snd (serve Profile cfg world' g' r'))))
    = [("profile.gohtml", mkProfileData m true)].
Proof.
  intros Hreach Htok Hver Henc Hid Hat Hnext Hnew Hresp.
  rewrite (callback_exchange_succeeds cfg world g r status exchange Hreach Htok Hver Henc)
    in Hnext.
  cbn [fst snd] in Hnext.
  rewrite redirected_cookie in Hnext.
  assert (request_session r' = with_tokens exchange (request_session r)) as Hs'
    by (unfold request_session at 1; now rewrite Hnext).
  unfold serve, handler, ProfileHandler.
  rewrite (view_run_fetch "profile.gohtml" cfg world' g' r' (AccessToken exchange)
             status' readErr m).
  - assert (nil_or_empty (request_session r' !! "id_token") = false) as ->.
    { rewrite Hs'. unfold with_tokens.
      rewrite lookup_insert_ne, lookup_insert_eq by discriminate.
      cbn [nil_or_empty]. exact (bool_decide_false _ Hid). }
    repeat split.
  - intros e. rewrite Hnext. discriminate.
  - rewrite Hs'. unfold with_tokens. apply lookup_insert_eq.
  - exact Hat.
  - exact Hnew.
  - exact Hresp.
Qed.

Lemma callback_then_profile_witness :
  rendered_profiles
    (body (resp_w (snd (serve Profile sample_cfg world_userinfo_ok None
                          (mkRequest "GET" ∅ (SessionCookie authenticated_session))))))
  = [("profile.gohtml", mkProfileData mary_profile true)].
Proof.
  refine (proj2 (proj2 (callback_then_profile sample_cfg world_ok world_userinfo_ok None None
            (callback_request "ApplicationState" (SessionCookie sample_session))
            (mkRequest "GET" ∅ (SessionCookie authenticated_session))
            200 200 false token_ok mary_profile
            (sample_reaches_exchange _) eq_refl eq_refl eq_refl _ _ _ eq_refl eq_refl)));
    try discriminate.
  vm_compute. reflexivity.
Defined.

(** ** The login page, path by path *)

Lemma createPKCEData_inv r pos p :
  createPKCEData r pos = Some p ->
  String.length (CodeVerifier p) = 115 /\
  CodeChallenge p = S256 (CodeVerifier p) /\
  CodeChallengeMethod p = "S256".
Proof.
  unfold createPKCEData. destruct (createCodeVerifier r pos) as [s|] eqn:E; [|discriminate].
  intros [= <-]. cbn [CodeVerifier CodeChallenge CodeChallengeMethod].
  split; [exact (createCodeVerifier_length _ _ _ E)|]. split; reflexivity.
Qed.

Lemma with_pkce_lookup p v :
  with_pkce p v !! "pkce_code_verifier" = Some (CodeVerifier p) /\
  with_pkce p v !! "pkce_code_challenge" = Some (CodeChallenge p) /\
  with_pkce p v !! "pkce_code_challenge_method" = Some (CodeChallengeMethod p).
Proof.
  unfold with_pkce. repeat split;
    repeat first [rewrite lookup_insert_eq | rewrite lookup_insert_ne by discriminate];
    reflexivity.
Qed.

(** The run of [/login] once material [p] is created. *)
Lemma login_created_run cfg world g r p :
  nil_or_empty (request_session r !! "pkceData") = true ->
  createPKCEData (rand world) 0 = Some p ->
  exists why rw pos sent_calls,
    serve Login cfg world g r =
      (why, mkH (Some p) (with_pkce p (request_session r)) rw pos sent_calls) /\
    Forall (fun q => url_Get (req_form q) "code_challenge" = CodeChallenge p /\
                     url_Get (req_form q) "code_challenge_method" = "S256")
           sent_calls /\
    Forall (fun d => L_Pkce d = Some p) (rendered_logins (body rw)).
Proof.
  intros Hnil Hp. login_unfold. unfold with_pkce.
  destruct (cookie r) as [|e|v] eqn:Hc; cbn [resp_w session];
    rewrite Hnil, Hp; split_cases; do 4 eexists; (split; [reflexivity|]);
    split; repeat first [apply List.Forall_nil | apply List.Forall_cons];
    try (split; reflexivity); reflexivity.
Qed.

(** X14: when [/login] creates PKCE material, the verifier and the
    challenge it stores in the session belong together (the challenge is
    the S256 of the verifier), and that same challenge, with method S256,
    is what it sends to the interaction endpoint and shows on the page. *)
Theorem login_stores_and_sends_one_challenge
    (cfg : config) (world : World) (g : option PKCE) (r : Request) (p : PKCE) :
  nil_or_empty (request_session r !! "pkceData") = true ->
  createPKCEData (rand world) 0 = Some p ->
  session (snd (serve Login cfg world g r)) !! "pkce_code_verifier"
    = Some (CodeVerifier p) /\
  session (snd (serve Login cfg world g r)) !! "pkce_code_challenge"
    = Some (S256 (CodeVerifier p)) /\
  session (snd (serve Login cfg world g r)) !! "pkce_code_challenge_method" = Some "S256" /\
  Forall (fun q => url_Get (req_form q) "code_challenge" = S256 (CodeVerifier p) /\
                   url_Get (req_form q) "code_challenge_method" = "S256")
         (calls (snd (serve Login cfg world g r))) /\
  Forall (fun d => L_Pkce d = Some p)
         (rendered_logins (body (resp_w (snd (serve Login cfg world g r))))).
Proof.
  intros Hnil Hp.
  destruct (login_created_run cfg world g r p Hnil Hp) as (why & rw & pos & cl & -> & Hc & Hb).
  destruct (createPKCEData_inv _ _ _ Hp) as (_ & Hch & Hm).
  destruct (with_pkce_lookup p (request_session r)) as (L1 & L2 & L3).
  cbn [snd session calls resp_w].
  split; [exact L1|]. split; [now rewrite L2, Hch|]. split; [now rewrite L3, Hm|].
  split; [rewrite <- Hch; exact Hc | exact Hb].
Qed.

Lemma login_stores_and_sends_one_challenge_witness :
  sent_calls_challenges
    (calls (snd (serve Login sample_cfg world_ok None (login_request NoCookie))))
    = [S256 (CodeVerifier ones_pkce)] /\
  session (snd (serve Login sample_cfg world_ok None (login_request NoCookie)))
    !! "pkce_code_challenge" = Some (S256 (CodeVerifier ones_pkce)).
Proof.
  split; [vm_compute; reflexivity|].
  refine (proj1 (proj2 (login_stores_and_sends_one_challenge sample_cfg world_ok None
                          (login_request NoCookie) ones_pkce _ _)));
    vm_compute; reflexivity.
Defined.

Ltac login_created r Hnil Hp :=
  login_unfold; unfold with_pkce; change (0 + 86) with 86;
  destruct (cookie r) as [|?e|?v]; cbn [resp_w session]; rewrite Hnil, Hp.

Ltac interact_reply H :=
  match goal with
  | |- context [interact ?world ?q] => first [rewrite (H q) | destruct (H q) as (? & ->)
                                              | destruct (H q) as (? & ? & ->)]
  end.

Lemma login_error_run cfg world g r p nonce scheme hostname :
  nil_or_empty (request_session r !! "pkceData") = true ->
  createPKCEData (rand world) 0 = Some p ->
  generateNonce (rand world) 86 = Some nonce ->
  url_Parse world (Issuer cfg +:+ "/") = Some (scheme, hostname) ->
  interact_error cfg world ->
  exists auth rw pos sent_calls,
    serve Login cfg world g r =
      (Returned, mkH (Some p) (with_pkce p (request_session r)) rw pos sent_calls) /\
    rendered_logins (body rw)
      = [mkLoginData auth (scheme +:+ "://" +:+ hostname) (ClientID cfg) (Issuer cfg)
           state nonce "" (Some p)].
Proof.
  intros Hnil Hp Hnonce Hparse Herr.
  login_created r Hnil Hp;
    (destruct (securecookie_Encode world _);
     change (0 + 86) with 86; rewrite Hnonce;
     (destruct Herr as [Hnew | Hnew Hdo | Hnew Hbad]; rewrite Hnew; cbn [negb];
      [ | interact_reply Hdo | interact_reply Hbad ]);
     rewrite Hparse; split_cases; do 4 eexists; split; reflexivity).
Qed.

(** X15: a failing interaction request does not stop the login page: when
    the request cannot be built, the transport fails or the body is not
    JSON, the page is rendered with an empty interaction handle and the
    PKCE material just created. *)
Theorem login_renders_with_empty_handle
    (cfg : config) (world : World) (g : option PKCE) (r : Request) (p : PKCE)
    (nonce scheme hostname : string) :
  nil_or_empty (request_session r !! "pkceData") = true ->
  createPKCEData (rand world) 0 = Some p ->
  generateNonce (rand world) 86 = Some nonce ->
  url_Parse world (Issuer cfg +:+ "/") = Some (scheme, hostname) ->
  interact_error cfg world ->
  fst (serve Login cfg world g r) = Returned /\
  exists d,
    rendered_logins (body (resp_w (snd (serve Login cfg world g r)))) = [d] /\
    L_InteractionHandle d = "" /\
    L_Pkce d = Some p /\
    L_Nonce d = nonce /\
    L_BaseUrl d = scheme +:+ "://" +:+ hostname.
Proof.
  intros Hnil Hp Hnonce Hparse Herr.
  destruct (login_error_run cfg world g r p nonce scheme hostname Hnil Hp Hnonce Hparse Herr)
    as (auth & rw & pos & cl & -> & Hb).
  split; [reflexivity|]. eexists. split; [exact Hb|]. repeat split.
Qed.

Lemma login_renders_with_empty_handle_witness :
  fst (serve Login sample_cfg world_interact_down None (login_request NoCookie)) = Returned /\
  map L_InteractionHandle
    (rendered_logins (body (resp_w (snd (serve Login sample_cfg world_interact_down None
                                           (login_request NoCookie)))))) = [""].
Proof.
  destruct (login_renders_with_empty_handle sample_cfg world_interact_down None
              (login_request NoCookie) ones_pkce ones_nonce "https" "dev-1.okta.com")
    as (Hret & d & Hd & Hh & _).
  - reflexivity.
  - vm_compute. reflexivity.
  - vm_compute. reflexivity.
  - reflexivity.
  - apply interact_transport; reflexivity.
  - split; [exact Hret|]. rewrite Hd. cbn [map]. now rewrite Hh.
Defined.

Lemma login_unreadable_run cfg world g r p nonce :
  nil_or_empty (request_session r !! "pkceData") = true ->
  createPKCEData (rand world) 0 = Some p ->
  generateNonce (rand world) 86 = Some nonce ->
  http_NewRequest world "POST" (Issuer cfg +:+ "/oauth2/v1/interact") = true ->
  (forall q, exists status body, interact world q = Response status true body) ->
  exists rw pos sent_calls,
    serve Login cfg world g r =
      (Exited, mkH (Some p) (with_pkce p (request_session r)) rw pos sent_calls) /\
    rendered_logins (body rw) = [] /\
    sent_cookie (sent_header rw) = None.
Proof.
  intros Hnil Hp Hnonce Hnew Hread.
  login_created r Hnil Hp;
    (destruct (securecookie_Encode world _);
     change (0 + 86) with 86; rewrite Hnonce, Hnew; cbn [negb];
     interact_reply Hread; do 3 eexists; repeat split).
Qed.

(** X16: a body of the interaction response that cannot be read ends the
    process ([log.Fatalf] inside [getInteractionHandle]): nothing is
    rendered and the cookie with the material just created is not sent. *)
Theorem login_exits_on_unreadable_interaction_body
    (cfg : config) (world : World) (g : option PKCE) (r : Request) (p : PKCE)
    (nonce : string) :
  nil_or_empty (request_session r !! "pkceData") = true ->
  createPKCEData (rand world) 0 = Some p ->
  generateNonce (rand world) 86 = Some nonce ->
  http_NewRequest world "POST" (Issuer cfg +:+ "/oauth2/v1/interact") = true ->
  (forall q, exists status body, interact world q = Response status true body) ->
  fst (serve Login cfg world g r) = Exited /\
  rendered_logins (body (resp_w (snd (serve Login cfg world g r)))) = [] /\
  cookie_after (cookie r) (fst (serve Login cfg world g r)) (snd (serve Login cfg world g r))
    = cookie r.
Proof.
  intros Hnil Hp Hnonce Hnew Hread.
  destruct (login_unreadable_run cfg world g r p nonce Hnil Hp Hnonce Hnew Hread)
    as (rw & pos & cl & -> & Hb & Hck).
  cbn [fst snd resp_w]. split; [reflexivity|]. split; [exact Hb|].
  unfold cookie_after, finish. cbn [resp_w]. now rewrite Hck.
Qed.

Lemma login_exits_on_unreadable_interaction_body_witness :
  fst (serve Login sample_cfg world_interact_unreadable None (login_request NoCookie)) = Exited.
Proof.
  refine (proj1 (login_exits_on_unreadable_interaction_body sample_cfg
                   world_interact_unreadable None (login_request NoCookie)
                   ones_pkce ones_nonce _ _ _ _ _));
    try (vm_compute; reflexivity).
  intros q. exists 200, SyntaxError. reflexivity.
Defined.

Lemma login_no_entropy_run cfg world g r :
  nil_or_empty (request_session r !! "pkceData") = true ->
  rand world = RandUnavailable ->
  exists rw,
    serve Login cfg world g r = (Exited, mkH g (request_session r) rw 86 []) /\
    body rw = body (cookie_error_writer r) /\
    sent_cookie (sent_header rw) = None.
Proof.
  intros Hnil Hrand.
  assert (createPKCEData (rand world) 0 = None) as Hp by (now rewrite Hrand).
  unfold cookie_error_writer.
  login_created r Hnil Hp; eexists; repeat split.
Qed.

(** X17: when the random source is unavailable, [/login] ends the process
    before anything is sent to the provider or rendered; the session values
    and the browser's cookie stay as they were. *)
Theorem login_exits_without_entropy
    (cfg : config) (world : World) (g : option PKCE) (r : Request) :
  nil_or_empty (request_session r !! "pkceData") = true ->
  rand world = RandUnavailable ->
  fst (serve Login cfg world g r) = Exited /\
  calls (snd (serve Login cfg world g r)) = [] /\
  rendered_logins (body (resp_w (snd (serve Login cfg world g r)))) = [] /\
  session (snd (serve Login cfg world g r)) = request_session r /\
  cookie_after (cookie r) (fst (serve Login cfg world g r)) (snd (serve Login cfg world g r))
    = cookie r.
Proof.
  intros Hnil Hrand.
  destruct (login_no_entropy_run cfg world g r Hnil Hrand) as (rw & -> & Hb & Hck).
  cbn [fst snd resp_w calls session]. repeat (split; [reflexivity|]).
  split.
  { rewrite Hb. unfold cookie_error_writer. destruct (cookie r); reflexivity. }
  split; [reflexivity|].
  unfold cookie_after, finish. cbn [resp_w]. now rewrite Hck.
Qed.

Lemma login_exits_without_entropy_witness :
  fst (serve Login sample_cfg world_no_entropy None (login_request NoCookie)) = Exited.
Proof.
  exact (proj1 (login_exits_without_entropy sample_cfg world_no_entropy None
                  (login_request NoCookie) eq_refl eq_refl)).
Defined.

(** ** The login page on every path *)

Lemma login_paths_no_cache cfg world g r why st :
  serve Login cfg world g r = (why, st) ->
  match why with
  | Returned => In (Line "Cache-Control" "no-cache") (sent_header (resp_w st))
  | _ => sent_cookie (sent_header (resp_w st)) = None
  end.
Proof.
  intros E. all_paths E;
    first [reflexivity | cbn; repeat first [left; reflexivity | right]].
Qed.

(** X18: every login page that is delivered is sent with
    [Cache-Control: no-cache]; and a run of [/login] that does not return
    sends no cookie. *)
Theorem login_page_is_not_cached
    (cfg : config) (world : World) (g : option PKCE) (r : Request) :
  match fst (serve Login cfg world g r) with
  | Returned =>
      In (Line "Cache-Control" "no-cache")
         (sent_header (resp_w (snd (serve Login cfg world g r))))
  | _ => sent_cookie (sent_header (resp_w (snd (serve Login cfg world g r)))) = None
  end.
Proof.
  destruct (serve Login cfg world g r) as [why st] eqn:E.
  exact (login_paths_no_cache cfg world g r why st E).
Qed.

Lemma login_paths_bad_cookie cfg world g m q e why st :
  serve Login cfg world g (mkRequest m q (BadCookie e)) = (why, st) ->
  sent_status (resp_w st) = Some 500 /\
  sent_cookie (sent_header (finish why (resp_w st))) = None /\
  exists rest, body (resp_w st) = Text (e +:+ newline) :: rest.
Proof.
  intros E.
  pattern why, st; match goal with |- ?P _ _ => set (Q := P) end.
  revert E. login_unfold. unfold pkce_assign. unfold_ops. cbn [cookie].
  split_cases; intros [= <- <-]; subst Q; cbv beta;
    (split; [reflexivity|]); (split; [reflexivity|]); eexists; reflexivity.
Qed.

(** X19: [/login] with a cookie that does not decode answers 500 with the
    decoding error first in the body and goes on (there is no return after
    [http.Error]); the cookie it then saves is not part of the response, so
    the browser is left without the session of the page it is shown. *)
Theorem login_with_undecodable_cookie
    (cfg : config) (world : World) (g : option PKCE) (r : Request) (e : string) :
  cookie r = BadCookie e ->
  sent_status (resp_w (snd (serve Login cfg world g r))) = Some 500 /\
  cookie_after (cookie r) (fst (serve Login cfg world g r)) (snd (serve Login cfg world g r))
    = cookie r /\
  exists rest,
    body (resp_w (snd (serve Login cfg world g r))) = Text (e +:+ newline) :: rest.
Proof.
  intros Hc. destruct r as [m q c]. cbn [cookie] in Hc. subst c.
  destruct (serve Login cfg world g (mkRequest m q (BadCookie e))) as [why st] eqn:E.
  destruct (login_paths_bad_cookie cfg world g m q e why st E) as (Hs & Hck & Hb).
  cbn [fst snd cookie]. split; [exact Hs|]. split; [|exact Hb].
  unfold cookie_after. now rewrite Hck.
Qed.

Lemma login_with_undecodable_cookie_witness :
  sent_status (resp_w (snd (serve Login sample_cfg world_ok None
                              (login_request (BadCookie "securecookie: the value is not valid")))))
    = Some 500 /\
  rendered_states (body (resp_w (snd (serve Login sample_cfg world_ok None
                              (login_request (BadCookie "securecookie: the value is not valid"))))))
    = ["ApplicationState"].
Proof.
  split; [|vm_compute; reflexivity].
  exact (proj1 (login_with_undecodable_cookie sample_cfg world_ok None
                  (login_request (BadCookie "securecookie: the value is not valid"))
                  "securecookie: the value is not valid" eq_refl)).
Defined.

(** ** The PKCE entries of reachable sessions *)

Lemma login_cookie_after_generated cfg world g r why st :
  serve Login cfg world g r = (why, st) ->
  cookie_after (cookie r) why st = cookie r \/
  exists p, createPKCEData (rand world) 0 = Some p /\
            cookie_after (cookie r) why st = SessionCookie (with_pkce p (request_session r)).
Proof.
  intros E. all_paths E;
    first [left; reflexivity
          | right; eexists; split; [first [eassumption | reflexivity] | reflexivity]].
Qed.

Lemma pkce_entries_frame (v v' : gmap string string) :
  v' !! "pkce_code_verifier" = v !! "pkce_code_verifier" ->
  v' !! "pkce_code_challenge" = v !! "pkce_code_challenge" ->
  v' !! "pkce_code_challenge_method" = v !! "pkce_code_challenge_method" ->
  pkce_entries_consistent v -> pkce_entries_consistent v'.
Proof. unfold pkce_entries_consistent. intros -> -> ->. exact (fun H => H). Qed.

Lemma pkce_consistent_request r :
  pkce_consistent (cookie r) -> pkce_entries_consistent (request_session r).
Proof.
  unfold pkce_consistent, request_session.
  destruct (cookie r); [| tauto | tauto]. intros _. left. now rewrite !lookup_empty.
Qed.

Lemma serve_keeps_pkce_consistent rt cfg world g r :
  pkce_consistent (cookie r) ->
  pkce_consistent (cookie_after (cookie r) (fst (serve rt cfg world g r))
                     (snd (serve rt cfg world g r))).
Proof.
  intros Hinv. pose proof (pkce_consistent_request r Hinv) as Hreq.
  destruct (serve rt cfg world g r) as [why st] eqn:E. cbn [fst snd].
  destruct rt.
  - now rewrite (home_cookie_after _ _ _ _ _ _ E).
  - destruct (login_cookie_after_generated _ _ _ _ _ _ E) as [-> | (p & Hp & ->)];
      [exact Hinv|].
    destruct (createPKCEData_inv _ _ _ Hp) as (Hl & Hch & Hm).
    destruct (with_pkce_lookup p (request_session r)) as (L1 & L2 & L3).
    right. exists (CodeVerifier p). rewrite L1, L2, L3, Hch, Hm. repeat split. exact Hl.
  - destruct (callback_cookie_after _ _ _ _ _ _ E) as [-> | [ex ->]]; [exact Hinv|].
    cbn [pkce_consistent]. revert Hreq. apply pkce_entries_frame;
      unfold with_tokens; now rewrite !lookup_insert_ne by discriminate.
  - now rewrite (profile_cookie_after _ _ _ _ _ _ E).
  - destruct (logout_cookie_after _ _ _ _ _ _ E) as [-> | ->]; [exact Hinv|].
    cbn [pkce_consistent]. revert Hreq. apply pkce_entries_frame;
      now rewrite !lookup_delete_ne by discriminate.
Qed.

(** X20: a browser that starts without cookie never holds a cookie the
    server cannot decode, and in every session it holds the PKCE entries
    are absent, or are a verifier of 115 characters together with its S256
    challenge and the method [S256]: no handler stores one without the
    others or changes them apart. *)
Theorem reachable_pkce_consistent (cfg : config) (s : option PKCE * Cookie) :
  reachable cfg s -> pkce_consistent (snd s).
Proof.
  apply reachable_invariant; [exact I|].
  intros rt world g r. apply serve_keeps_pkce_consistent.
Qed.

Lemma reachable_pkce_consistent_witness :
  pkce_consistent (SessionCookie (with_tokens token_without_access sample_session)).
Proof.
  exact (reachable_pkce_consistent sample_cfg _ reachable_without_access_token).
Defined.

(** ** More on the callback *)

(** X21: when the session with the new tokens cannot be encoded into a
    cookie, the callback ends the process after the exchange: nothing has
    been written, and the browser keeps the cookie it had, without the
    tokens. *)
Theorem callback_exits_when_cookie_does_not_encode
    (cfg : config) (world : World) (g : option PKCE) (r : Request)
    (status : nat) (exchange : Exchange) :
  reaches_exchange cfg world r ->
  token world (token_request cfg r (stored_verifier r))
    = Response status false (Unmarshalled exchange) ->
  verifyToken world (IdToken exchange) = true ->
  securecookie_Encode world (with_tokens exchange (request_session r)) = false ->
  fst (serve LoginCallback cfg world g r) = Exited /\
  sent (resp_w (snd (serve LoginCallback cfg world g r))) = None /\
  body (resp_w (snd (serve LoginCallback cfg world g r))) = [] /\
  cookie_after (cookie r) (fst (serve LoginCallback cfg world g r))
    (snd (serve LoginCallback cfg world g r)) = cookie r.
Proof.
  intros Hreach Htok Hver Henc.
  rewrite (callback_save_fails_state cfg world g r status exchange Hreach Htok Hver Henc).
  repeat split.
Qed.

Lemma sample_reaches_exchange_too_long :
  reaches_exchange sample_cfg world_cookie_too_long
    (callback_request "ApplicationState" (SessionCookie sample_session)).
Proof.
  repeat split; try (vm_compute; reflexivity). vm_compute. discriminate.
Qed.

Lemma callback_exits_when_cookie_does_not_encode_witness :
  fst (serve LoginCallback sample_cfg world_cookie_too_long None
         (callback_request "ApplicationState" (SessionCookie sample_session))) = Exited.
Proof.
  exact (proj1 (callback_exits_when_cookie_does_not_encode sample_cfg world_cookie_too_long
                  None (callback_request "ApplicationState" (SessionCookie sample_session))
                  200 token_ok sample_reaches_exchange_too_long eq_refl eq_refl eq_refl)).
Defined.

Ltac frame_done :=
  unfold enter, set_w, add_call; cbn [pkce session resp_w rand_pos calls app]; reflexivity.

Lemma callback_run_frame cfg world r :
  exists why v rw sent_calls,
    forall g', serve LoginCallback cfg world g' r = (why, mkH g' v rw 0 sent_calls).
Proof.
  destruct (decide (url_Get (Query r) "state" = state)) as [Hst|Hst].
  2:{ do 4 eexists. intros g'. rewrite (callback_state_mismatch cfg world g' r Hst).
      frame_done. }
  destruct (decide (url_Get (Query r) "interaction_code" = "")) as [Hcode|Hcode].
  { do 4 eexists. intros g'. rewrite (callback_code_missing cfg world g' r Hst Hcode).
    frame_done. }
  destruct (pkce_stored (request_session r)) eqn:Hp.
  2:{ do 4 eexists. intros g'. rewrite (callback_pkce_missing cfg world g' r Hst Hcode Hp).
      frame_done. }
  destruct (http_NewRequest world "POST" (Issuer cfg +:+ "/oauth2/v1/token")) eqn:Hnew.
  2:{ do 4 eexists. intros g'. rewrite (callback_request_fails cfg world g' r Hst Hcode Hp Hnew).
      frame_done. }
  assert (reaches_exchange cfg world r) as Hreach by (repeat split; assumption).
  destruct (token world (token_request cfg r (stored_verifier r)))
    as [|status [|] [|stored|exchange]] eqn:Htok;
    try (do 4 eexists; intros g';
         rewrite (callback_exchange_fails cfg world g' r Hreach)
           by (rewrite Htok; constructor); frame_done).
  destruct (verifyToken world (IdToken exchange)) eqn:Hver.
  2:{ do 4 eexists. intros g'. rewrite (callback_exchange_fails cfg world g' r Hreach)
        by (rewrite Htok; apply invalid_token; exact Hver). frame_done. }
  destruct (securecookie_Encode world (with_tokens exchange (request_session r))) eqn:Henc.
  - do 4 eexists. intros g'.
    rewrite (callback_exchange_succeeds cfg world g' r status exchange Hreach Htok Hver Henc).
    frame_done.
  - do 4 eexists. intros g'.
    rewrite (callback_save_fails_state cfg world g' r status exchange Hreach Htok Hver Henc).
    frame_done.
Qed.

(** X22: the callback neither reads nor writes the process-wide [pkce]:
    run against two values of it (say before and after another browser's
    login), it stops the same way with the same session values, the same
    response and the same requests to the provider, and leaves [pkce] as
    it found it. *)
Theorem callback_independent_of_process_pkce
    (cfg : config) (world : World) (g g' : option PKCE) (r : Request) :
  fst (serve LoginCallback cfg world g r) = fst (serve LoginCallback cfg world g' r) /\
  session (snd (serve LoginCallback cfg world g r))
    = session (snd (serve LoginCallback cfg world g' r)) /\
  resp_w (snd (serve LoginCallback cfg world g r))
    = resp_w (snd (serve LoginCallback cfg world g' r)) /\
  calls (snd (serve LoginCallback cfg world g r))
    = calls (snd (serve LoginCallback cfg world g' r)) /\
  pkce (snd (serve LoginCallback cfg world g r)) = g.
Proof.
  destruct (callback_run_frame cfg world r) as (why & v & rw & cl & H).
  rewrite (H g), (H g'). repeat split.
Qed.

(** ** The login page and the tokens *)

Lemma login_paths_keep_tokens cfg world g r why st :
  serve Login cfg world g r = (why, st) ->
  session st !! "id_token" = request_session r !! "id_token" /\
  session st !! "access_token" = request_session r !! "access_token" /\
  match cookie_after (cookie r) why st with
  | SessionCookie v =>
      v !! "id_token" = request_session r !! "id_token" /\
      v !! "access_token" = request_session r !! "access_token"
  | _ => cookie_after (cookie r) why st = cookie r
  end.
Proof.
  intros E. all_paths E; repeat split;
    cbn [session]; rewrite ?lookup_insert_ne by discriminate; reflexivity.
Qed.

(** X23: [/login] never touches the tokens: after it, in memory and in the
    cookie it may set, [id_token] and [access_token] are those of the
    request's session, so a browser that was authenticated stays so while
    its PKCE material is replaced. *)
Theorem login_keeps_tokens
    (cfg : config) (world : World) (g : option PKCE) (r : Request) :
  session (snd (serve Login cfg world g r)) !! "id_token"
    = request_session r !! "id_token" /\
  session (snd (serve Login cfg world g r)) !! "access_token"
    = request_session r !! "access_token" /\
  match cookie_after (cookie r) (fst (serve Login cfg world g r))
          (snd (serve Login cfg world g r)) with
  | SessionCookie v =>
      v !! "id_token" = request_session r !! "id_token" /\
      v !! "access_token" = request_session r !! "access_token"
  | _ => cookie_after (cookie r) (fst (serve Login cfg world g r))
           (snd (serve Login cfg world g r)) = cookie r
  end.
Proof.
  destruct (serve Login cfg world g r) as [why st] eqn:E.
  exact (login_paths_keep_tokens cfg world g r why st E).
Qed.

(** ** The verifier keeps the random bytes apart *)

Lemma land_shiftl_small x y n : (y < 2 ^ n)%N -> N.land (N.shiftl x n) y = 0%N.
Proof.
  intros Hy. apply N.bits_inj_0. intros m. rewrite N.land_spec.
  destruct (N.lt_ge_cases m n) as [Hm|Hm].
  - now rewrite N.shiftl_spec_low.
  - rewrite <- (N.mod_small y (2 ^ n)) by exact Hy.
    rewrite N.mod_pow2_bits_high by exact Hm. apply andb_false_r.
Qed.

Lemma lor_shiftl_small x y n :
  (y < 2 ^ n)%N -> N.lor (N.shiftl x n) y = (x * 2 ^ n + y)%N.
Proof.
  intros Hy. rewrite <- N.lxor_lor by (now apply land_shiftl_small).
  rewrite <- N.add_nocarry_lxor by (now apply land_shiftl_small).
  now rewrite N.shiftl_mul_pow2.
Qed.

Lemma byte_to_N_lt (b : byte) : (Byte.to_N b < 256)%N.
Proof. pose proof (Byte.to_N_bounded b). lia. Qed.

Lemma byte_to_N_inj (b b' : byte) : Byte.to_N b = Byte.to_N b' -> b = b'.
Proof.
  intros H. pose proof (Byte.of_to_N b) as E. rewrite H, Byte.of_to_N in E.
  now injection E.
Qed.

Lemma sextet_index_div v k : sextet_index v k = ((v / 2 ^ k) mod 64)%N.
Proof.
  unfold sextet_index. change 63%N with (N.ones 6).
  now rewrite N.land_ones, N.shiftr_div_pow2.
Qed.

Lemma sextet_index_lt v k : (sextet_index v k < 64)%N.
Proof. rewrite sextet_index_div. now apply N.mod_lt. Qed.

Lemma encodeURL_NoDup : NoDup Base64.encodeURL.
Proof. apply (bool_decide_unpack _). vm_compute. reflexivity. Qed.

Lemma sextet_inj v k v' k' :
  Base64.sextet v k = Base64.sextet v' k' -> sextet_index v k = sextet_index v' k'.
Proof.
  unfold Base64.sextet. fold (sextet_index v k) (sextet_index v' k'). intros H.
  pose proof (sextet_index_lt v k). pose proof (sextet_index_lt v' k').
  apply N2Nat.inj.
  apply (proj1 (List.NoDup_nth Base64.encodeURL "A"%char)) in H;
    [exact H | apply NoDup_ListNoDup, encodeURL_NoDup | | ];
    change (length Base64.encodeURL) with 64; lia.
Qed.

(** A group of up to 24 bits is determined by its four sextets. *)
Lemma sextets_determine (v v' : N) :
  (v < 2 ^ 24)%N -> (v' < 2 ^ 24)%N ->
  sextet_index v 18 = sextet_index v' 18 ->
  sextet_index v 12 = sextet_index v' 12 ->
  sextet_index v 6 = sextet_index v' 6 ->
  sextet_index v 0 = sextet_index v' 0 ->
  v = v'.
Proof.
  rewrite !sextet_index_div. change (2 ^ 24)%N with 16777216%N.
  change (2 ^ 18)%N with 262144%N. change (2 ^ 12)%N with 4096%N.
  change (2 ^ 6)%N with 64%N. change (2 ^ 0)%N with 1%N.
  rewrite !N.div_1_r. intros Hv Hv' H18 H12 H6 H0.
  assert (forall x, x / 4096 = x / 64 / 64)%N as E12
    by (intros x; now rewrite N.Div0.div_div).
  assert (forall x, x / 262144 = x / 64 / 64 / 64)%N as E18
    by (intros x; now rewrite !N.Div0.div_div).
  rewrite !E18 in H18. rewrite !E12 in H12.
  pose proof (N.div_mod v 64 ltac:(discriminate)).
  pose proof (N.div_mod (v / 64) 64 ltac:(discriminate)).
  pose proof (N.div_mod (v / 64 / 64) 64 ltac:(discriminate)).
  pose proof (N.div_mod (v / 64 / 64 / 64) 64 ltac:(discriminate)).
  pose proof (N.div_mod v' 64 ltac:(discriminate)).
  pose proof (N.div_mod (v' / 64) 64 ltac:(discriminate)).
  pose proof (N.div_mod (v' / 64 / 64) 64 ltac:(discriminate)).
  pose proof (N.div_mod (v' / 64 / 64 / 64) 64 ltac:(discriminate)).
  pose proof (N.mod_lt v 64 ltac:(discriminate)).
  pose proof (N.mod_lt (v / 64) 64 ltac:(discriminate)).
  pose proof (N.mod_lt (v / 64 / 64) 64 ltac:(discriminate)).
  pose proof (N.mod_lt (v / 64 / 64 / 64) 64 ltac:(discriminate)).
  pose proof (N.mod_lt v' 64 ltac:(discriminate)).
  pose proof (N.mod_lt (v' / 64) 64 ltac:(discriminate)).
  pose proof (N.mod_lt (v' / 64 / 64) 64 ltac:(discriminate)).
  pose proof (N.mod_lt (v' / 64 / 64 / 64) 64 ltac:(discriminate)).
  generalize dependent (v / 64 / 64 / 64 / 64)%N.
  generalize dependent (v' / 64 / 64 / 64 / 64)%N.
  generalize dependent ((v / 64 / 64 / 64) mod 64)%N.
  generalize dependent ((v' / 64 / 64 / 64) mod 64)%N.
  generalize dependent (v / 64 / 64 / 64)%N. generalize dependent (v' / 64 / 64 / 64)%N.
  generalize dependent ((v / 64 / 64) mod 64)%N.
  generalize dependent ((v' / 64 / 64) mod 64)%N.
  generalize dependent (v / 64 / 64)%N. generalize dependent (v' / 64 / 64)%N.
  generalize dependent ((v / 64) mod 64)%N. generalize dependent ((v' / 64) mod 64)%N.
  generalize dependent (v / 64)%N. generalize dependent (v' / 64)%N.
  generalize dependent (v mod 64)%N. generalize dependent (v' mod 64)%N.
  intros. lia.
Qed.

Lemma group_value a b c :
  group a b c = (Byte.to_N a * 65536 + Byte.to_N b * 256 + Byte.to_N c)%N.
Proof.
  unfold group. pose proof (byte_to_N_lt a). pose proof (byte_to_N_lt b).
  pose proof (byte_to_N_lt c).
  replace (N.shiftl (Byte.to_N a) 16) with (N.shiftl (N.shiftl (Byte.to_N a) 8) 8)
    by (now rewrite N.shiftl_shiftl).
  rewrite <- N.shiftl_lor, (lor_shiftl_small (Byte.to_N a) (Byte.to_N b) 8) by exact H0.
  rewrite lor_shiftl_small by exact H1. change (2 ^ 8)%N with 256%N. lia.
Qed.

Lemma group_inj a b c a' b' c' :
  Base64.sextet (group a b c) 18 = Base64.sextet (group a' b' c') 18 ->
  Base64.sextet (group a b c) 12 = Base64.sextet (group a' b' c') 12 ->
  sextet_index (group a b c) 6 = sextet_index (group a' b' c') 6 ->
  sextet_index (group a b c) 0 = sextet_index (group a' b' c') 0 ->
  a = a' /\ b = b' /\ c = c'.
Proof.
  intros H18 H12 H6 H0. apply sextet_inj in H18, H12.
  pose proof (byte_to_N_lt a). pose proof (byte_to_N_lt b). pose proof (byte_to_N_lt c).
  pose proof (byte_to_N_lt a'). pose proof (byte_to_N_lt b'). pose proof (byte_to_N_lt c').
  assert (group a b c = group a' b' c') as E.
  { apply sextets_determine; try assumption; rewrite group_value;
      change (2 ^ 24)%N with 16777216%N; lia. }
  rewrite !group_value in E.
  repeat split; apply byte_to_N_inj; lia.
Qed.

Lemma group_two a b :
  N.lor (N.shiftl (Byte.to_N a) 16) (N.shiftl (Byte.to_N b) 8) = group a b x00.
Proof. unfold group. cbn [Byte.to_N]. now rewrite N.lor_0_r. Qed.

Lemma group_one a : N.shiftl (Byte.to_N a) 16 = group a x00 x00.
Proof. unfold group. cbn [Byte.to_N]. now rewrite N.shiftl_0_l, !N.lor_0_r. Qed.

Lemma sextet_index_two a b a' b' :
  sextet_index (group a b x00) 0 = sextet_index (group a' b' x00) 0.
Proof.
  rewrite !sextet_index_div, !group_value. cbn [Byte.to_N]. change (2 ^ 0)%N with 1%N.
  rewrite !N.div_1_r.
  replace (Byte.to_N a * 65536 + Byte.to_N b * 256 + 0)%N
    with ((Byte.to_N a * 1024 + Byte.to_N b * 4) * 64)%N by lia.
  replace (Byte.to_N a' * 65536 + Byte.to_N b' * 256 + 0)%N
    with ((Byte.to_N a' * 1024 + Byte.to_N b' * 4) * 64)%N by lia.
  now rewrite !N.Div0.mod_mul.
Qed.

Lemma sextet_index_one a a' :
  sextet_index (group a x00 x00) 6 = sextet_index (group a' x00 x00) 6.
Proof.
  rewrite !sextet_index_div, !group_value. cbn [Byte.to_N]. change (2 ^ 6)%N with 64%N.
  replace (Byte.to_N a * 65536 + 0 * 256 + 0)%N with ((Byte.to_N a * 16 * 64) * 64)%N by lia.
  replace (Byte.to_N a' * 65536 + 0 * 256 + 0)%N with ((Byte.to_N a' * 16 * 64) * 64)%N by lia.
  rewrite !N.div_mul by discriminate. now rewrite !N.Div0.mod_mul.
Qed.

Lemma encode_raw_inj (l l' : list byte) :
  Base64.encode None l = Base64.encode None l' -> l = l'.
Proof.
  revert l'. induction l as [| a | a b | a b c l IH] using list_ind3;
    intros [|a' [|b' [|c' l']]]; cbn [Base64.encode];
    try discriminate; try reflexivity.
  - rewrite !group_one. intros [= H18 H12].
    destruct (group_inj a x00 x00 a' x00 x00 H18 H12 (sextet_index_one a a')
                (sextet_index_two _ _ _ _)) as (-> & _). reflexivity.
  - rewrite !group_two. intros [= H18 H12 H6]. apply sextet_inj in H6.
    destruct (group_inj a b x00 a' b' x00 H18 H12 H6 (sextet_index_two _ _ _ _))
      as (-> & -> & _). reflexivity.
  - fold (group a b c) (group a' b' c'). intros [= H18 H12 H6 H0 Hrest].
    apply sextet_inj in H6, H0.
    destruct (group_inj a b c a' b' c' H18 H12 H6 H0) as (-> & -> & ->).
    f_equal. f_equal. f_equal. now apply IH.
Qed.

Lemma string_of_list_ascii_inj l l' :
  string_of_list_ascii l = string_of_list_ascii l' -> l = l'.
Proof.
  intros H. rewrite <- (list_ascii_of_string_of_list_ascii l),
              <- (list_ascii_of_string_of_list_ascii l'). now rewrite H.
Qed.

(** X24: the code verifier determines the random bytes it was made from:
    two runs of the generator that give the same verifier drew the same 86
    bytes, so nothing of the randomness is lost in the encoding. *)
Theorem createCodeVerifier_injective (r r' : Rand) (pos pos' : nat) (s : string) :
  createCodeVerifier r pos = Some s ->
  createCodeVerifier r' pos' = Some s ->
  rand_Read r pos 86 = rand_Read r' pos' 86.
Proof.
  unfold createCodeVerifier.
  destruct (rand_Read r pos 86) as [bs|]; [|discriminate].
  destruct (rand_Read r' pos' 86) as [bs'|]; [|discriminate].
  intros [= <-] [= H]. f_equal. symmetry.
  unfold Base64.RawURLEncoding_EncodeToString in H.
  now apply encode_raw_inj, string_of_list_ascii_inj.
Qed.

Lemma createCodeVerifier_injective_witness :
  rand_Read (RandSupply (fun _ => x00)) 0 86 = rand_Read (RandSupply (fun _ => x00)) 7 86.
Proof.
  apply (createCodeVerifier_injective _ _ _ _ (CodeVerifier zero_pkce));
    vm_compute; reflexivity.
Defined.
